(** * LVGL simulator launcher (src/main.c)

    A shallow embedding of the launcher's two entry points:

    - the standard build ([USE_STANDARD] defined): [configure_simulator]
      followed by [main];
    - the alternate build: [main_alt], the second [main] of the file.

    The C library routines the launcher relies on ([getenv], [atoi],
    [getopt], [exit]) are modelled after their glibc behaviour.  The
    routines of the repository that live outside [main.c] ([die], the
    backend registry and dispatcher, the toolkit) are parameters of the
    development or are modelled from the specification; each such
    definition says so. *)

From Stdlib Require Import ZArith String Ascii List Bool Lia Arith.
From Stdlib Require Import DecimalString DecimalPos DecimalZ.
Import ListNotations.

Local Open Scope string_scope.
Local Open Scope Z_scope.

(** ** Data model *)

(** [simulator_settings_t].  Modelled from the spec: the record is declared
    in [src/lib/simulator_settings.h], which is not part of the sources at
    hand; the specification lists its four fields.  The two dimensions hold
    the [int] that [atoi] returns. *)
Record simulator_settings_t : Type := mk_settings {
  window_width  : Z;
  window_height : Z;
  fullscreen    : bool;
  maximize      : bool
}.

Definition set_window_width (v : Z) (s : simulator_settings_t) :=
  mk_settings v (window_height s) (fullscreen s) (maximize s).
Definition set_window_height (v : Z) (s : simulator_settings_t) :=
  mk_settings (window_width s) v (fullscreen s) (maximize s).
Definition set_fullscreen (b : bool) (s : simulator_settings_t) :=
  mk_settings (window_width s) (window_height s) b (maximize s).
Definition set_maximize (b : bool) (s : simulator_settings_t) :=
  mk_settings (window_width s) (window_height s) (fullscreen s) b.

(** Observable actions of the process, in the order they happen. *)
Inductive stream : Type := Stdout | Stderr.

Inductive printf_arg : Type :=
| ArgInt (z : Z)
| ArgChar (c : ascii)
| ArgStr (s : string).

Inductive event : Type :=
| EvRegister                                      (* driver_backends_register() *)
| EvPrintf (f : stream) (fmt : string) (args : list printf_arg)
| EvPrintSupported                                (* driver_backends_print_supported() *)
| EvLvInit                                        (* lv_init() *)
| EvInitBackend (name : option string)            (* driver_backends_init_backend(name) *)
| EvDemoWidgets                                   (* lv_demo_widgets() *)
| EvSlideshow                                     (* lv_demo_widgets_start_slideshow() *)
| EvDrawCharExample                               (* draw_char_example() *)
| EvRunLoop.                                      (* driver_backends_run_loop() *)

(** The globals of [getopt]: [optarg], [optopt], and the scan position.
    [nextchar] is the unread remainder of the argv element being scanned
    and [rest] the argv elements from [optind] on (the element under scan
    excluded). *)
Record getopt_state : Type := mk_getopt {
  optarg   : option string;
  optopt   : ascii;
  nextchar : string;
  rest     : list string
}.

(** The process state: the global [settings], the static
    [selected_backend] pointer ([None] is [NULL]), the [getopt] globals and
    the trace of actions performed so far. *)
Record world : Type := mk_world {
  settings         : simulator_settings_t;
  selected_backend : option string;
  gopt             : getopt_state;
  trace            : list event
}.

Definition with_settings (f : simulator_settings_t -> simulator_settings_t) (w : world) :=
  mk_world (f (settings w)) (selected_backend w) (gopt w) (trace w).
Definition with_backend (b : option string) (w : world) :=
  mk_world (settings w) b (gopt w) (trace w).
Definition with_gopt (g : getopt_state) (w : world) :=
  mk_world (settings w) (selected_backend w) g (trace w).
Definition emit (evs : list event) (w : world) :=
  mk_world (settings w) (selected_backend w) (gopt w) (trace w ++ evs).

(** ** A state monad with process exit

    [Ret] is normal completion, [Exit] is [exit(status)], [Fuel] marks a
    loop still running when its iteration budget ran out, and [Undef]
    marks undefined behaviour (a [NULL] string handed to the C library). *)
Inductive result (A : Type) : Type :=
| Ret (a : A) (w : world)
| Exit (status : Z) (w : world)
| Fuel (w : world)
| Undef (w : world).
Arguments Ret {A} a w.
Arguments Exit {A} status w.
Arguments Fuel {A} w.
Arguments Undef {A} w.

Definition M (A : Type) : Type := world -> result A.

Definition ret {A} (a : A) : M A := fun w => Ret a w.

Definition bind {A B} (m : M A) (k : A -> M B) : M B :=
  fun w =>
    match m w with
    | Ret a w' => k a w'
    | Exit st w' => Exit st w'
    | Fuel w' => Fuel w'
    | Undef w' => Undef w'
    end.

Notation "x <- m ;; k" := (bind m (fun x => k))
  (at level 61, m at next level, right associativity).
Notation "m ;; k" := (bind m (fun _ => k))
  (at level 61, right associativity).

Definition modify (f : world -> world) : M unit := fun w => Ret tt (f w).
Definition call (e : event) : M unit := modify (emit [e]).
Definition fprintf (f : stream) (fmt : string) (args : list printf_arg) : M unit :=
  call (EvPrintf f fmt args).
Definition exit {A} (status : Z) : M A := fun w => Exit status w.
Definition undefined {A} : M A := fun w => Undef w.

Definition EXIT_SUCCESS : Z := 0.

(** The state a result carries, whatever its kind. *)
Definition world_of {A} (r : result A) : world :=
  match r with
  | Ret _ w | Exit _ w | Fuel w | Undef w => w
  end.

(** [while ((x = cond) != stop) body(x)], run for at most [fuel] rounds. *)
Fixpoint while_some {A} (fuel : nat) (cond : M (option A)) (body : A -> M unit) : M unit :=
  match fuel with
  | O => fun w => Fuel w
  | S n => x <- cond ;;
           match x with
           | Some a => body a ;; while_some n cond body
           | None => ret tt
           end
  end.

(** ** The C library *)

(** The line feed that ends the C format strings. *)
Definition LF : string := String "010"%char EmptyString.

Definition environ : Type := string -> option string.

Definition getenv (env : environ) (name : string) : option string := env name.

Module Libc.

Definition isspace (c : ascii) : bool :=
  let n := nat_of_ascii c in
  (Nat.eqb n 32 || (Nat.leb 9 n && Nat.leb n 13))%bool.

Definition digit_val (c : ascii) : option Z :=
  let n := nat_of_ascii c in
  if (Nat.leb 48 n && Nat.leb n 57)%bool then Some (Z.of_nat n - 48) else None.

Fixpoint skip_space (s : string) : string :=
  match s with
  | String c s' => if isspace c then skip_space s' else s
  | EmptyString => s
  end.

(** The value of the longest prefix of decimal digits, from accumulator [acc]. *)
Fixpoint digits (acc : Z) (s : string) : Z :=
  match s with
  | String c s' =>
      match digit_val c with
      | Some d => digits (10 * acc + d) s'
      | None => acc
      end
  | EmptyString => acc
  end.

Definition LONG_MAX : Z := 2 ^ 63 - 1.
Definition LONG_MIN : Z := - 2 ^ 63.
Definition INT_MAX : Z := 2 ^ 31 - 1.
Definition INT_MIN : Z := - 2 ^ 31.

Definition clamp_long (v : Z) : Z :=
  if v <? LONG_MIN then LONG_MIN else if LONG_MAX <? v then LONG_MAX else v.

(** Conversion of a [long] to [int]: reduction modulo 2^32 into
    [INT_MIN .. INT_MAX]. *)
Definition to_int (v : Z) : Z := (v + 2 ^ 31) mod 2 ^ 32 - 2 ^ 31.

(** [strtol(s, NULL, 10)] on an LP64 target: optional white space, an
    optional sign, then the longest run of digits; the result saturates at
    the bounds of [long]. *)
Definition strtol (s : string) : Z :=
  match skip_space s with
  | String c s' =>
      if Ascii.eqb c "-" then clamp_long (- digits 0 s')
      else if Ascii.eqb c "+" then clamp_long (digits 0 s')
      else clamp_long (digits 0 (String c s'))
  | EmptyString => clamp_long (digits 0 EmptyString)
  end.

(** glibc: [atoi(s)] is [(int) strtol(s, NULL, 10)]. *)
Definition atoi (s : string) : Z := to_int (strtol s).

(** [strchr]: the suffix of [s] that starts at the first [c]. *)
Fixpoint strchr (s : string) (c : ascii) : option string :=
  match s with
  | EmptyString => None
  | String a s' => if Ascii.eqb a c then Some s else strchr s' c
  end.

(** An argv element that is not an option: it does not start with '-',
    or it is "-" alone. *)
Definition is_nonoption (a : string) : bool :=
  match a with
  | String "-" (String _ _) => false
  | _ => true
  end.

Fixpoint skip_nonoptions (l : list string) : list string :=
  match l with
  | a :: l' => if is_nonoption a then skip_nonoptions l' else l
  | [] => []
  end.

(** The second character of [temp] is ':'. *)
Definition takes_argument (temp : string) : bool :=
  match temp with
  | String _ (String ":" _) => true
  | _ => false
  end.

(** The second and third characters of [temp] are both ':'. *)
Definition argument_optional (temp : string) : bool :=
  match temp with
  | String _ (String ":" (String ":" _)) => true
  | _ => false
  end.

Definition starts_with_colon (optstring : string) : bool :=
  match optstring with
  | String ":" _ => true
  | _ => false
  end.

(** Scanning one short option: [c] is the option character just read,
    [cs] the rest of its argv element and [l] the argv elements after it.
    Returns [getopt]'s return value, its globals afterwards and what it
    wrote to stderr. *)
Definition short_option (optstring argv0 : string) (c : ascii) (cs : string)
    (l : list string) (old_optopt : ascii) : option ascii * getopt_state * list event :=
  let print_errors := negb (starts_with_colon optstring) in
  match strchr optstring c with
  | None =>
      (Some "?"%char, mk_getopt None c cs l,
       if print_errors
       then [EvPrintf Stderr ("%s: invalid option -- '%c'" ++ LF) [ArgStr argv0; ArgChar c]]
       else [])
  | Some temp =>
      if (Ascii.eqb c ":" || Ascii.eqb c ";")%bool then
        (Some "?"%char, mk_getopt None c cs l,
         if print_errors
         then [EvPrintf Stderr ("%s: invalid option -- '%c'" ++ LF) [ArgStr argv0; ArgChar c]]
         else [])
      else if takes_argument temp then
        if argument_optional temp then
          match cs with
          | EmptyString => (Some c, mk_getopt None old_optopt "" l, [])
          | _ => (Some c, mk_getopt (Some cs) old_optopt "" l, [])
          end
        else
          match cs with
          | String _ _ => (Some c, mk_getopt (Some cs) old_optopt "" l, [])
          | EmptyString =>
              match l with
              | [] =>
                  (Some (if starts_with_colon optstring then ":" else "?")%char,
                   mk_getopt None c "" [],
                   if print_errors
                   then [EvPrintf Stderr ("%s: option requires an argument -- '%c'" ++ LF)
                              [ArgStr argv0; ArgChar c]]
                   else [])
              | a :: l' => (Some c, mk_getopt (Some a) old_optopt "" l', [])
              end
          end
      else (Some c, mk_getopt None old_optopt cs l, [])
  end.

(** One call of [getopt(argc, argv, optstring)] for an [optstring] that
    starts with neither '+' nor '-'.  [posix] is whether POSIXLY_CORRECT
    is set: scanning then stops at the first non-option, otherwise
    non-options are passed over.  [None] is the return value -1. *)
Definition getopt_call (posix : bool) (optstring argv0 : string) (g : getopt_state)
    : option ascii * getopt_state * list event :=
  match nextchar g with
  | String c cs => short_option optstring argv0 c cs (rest g) (optopt g)
  | EmptyString =>
      let l := if posix then rest g else skip_nonoptions (rest g) in
      match l with
      | [] => (None, mk_getopt None (optopt g) "" [], [])
      | a :: l' =>
          if String.eqb a "--" then (None, mk_getopt None (optopt g) "" l', [])
          else
            match a with
            | String "-" (String c cs) => short_option optstring argv0 c cs l' (optopt g)
            | _ => (None, mk_getopt None (optopt g) "" l, [])
            end
      end
  end.

(** The globals before the first call: scanning starts at [argv[1]]. *)
Definition getopt_init (argv : list string) : getopt_state :=
  mk_getopt None "?"%char "" (tl argv).

End Libc.

(** ** Reading numbers

    Two notions against which [atoi] is measured: whether a string begins
    (after white space and an optional sign) with a decimal digit, and the
    decimal text of an integer as the standard library prints it. *)
Definition is_digit (c : ascii) : bool :=
  match Libc.digit_val c with Some _ => true | None => false end.

Definition starts_with_number (s : string) : bool :=
  match Libc.skip_space s with
  | String c s' =>
      if (Ascii.eqb c "-" || Ascii.eqb c "+")%bool
      then match s' with
           | String c' _ => is_digit c'
           | EmptyString => false
           end
      else is_digit c
  | EmptyString => false
  end.

Definition decimal (z : Z) : string := NilZero.string_of_int (Z.to_int z).

(** A string is a numeral when the standard library reads it as a signed
    decimal integer. *)
Definition is_numeral (s : string) : bool :=
  match NilZero.int_of_string s with Some _ => true | None => false end.

(** A string that begins with a number: white space [ws], a sign (none,
    '+' or '-'), the run of decimal digits [u], and then text that does not
    go on with a digit.  [signed_value] is the number the sign and the
    digits denote. *)
Fixpoint all_space (s : string) : bool :=
  match s with
  | EmptyString => true
  | String c s' => (Libc.isspace c && all_space s')%bool
  end.

Definition no_leading_digit (s : string) : bool :=
  match s with
  | String c _ => negb (is_digit c)
  | EmptyString => true
  end.

Definition is_sign (s : string) : bool :=
  (String.eqb s "" || String.eqb s "+" || String.eqb s "-")%bool.

Definition signed_value (sign : string) (u : Decimal.uint) : Z :=
  if String.eqb sign "-" then - Z.of_uint u else Z.of_uint u.

(** ** The debug dump of the draw buffer

    [debug_print_lvgl_buffer] of the alternate build.  The buffer contents
    [data] (bytes) and the resolution [w], [h] come from the toolkit
    ([lv_display_get_buf_active], [lv_display_get_horizontal_resolution],
    [lv_display_get_vertical_resolution]) and are inputs here.  The result
    is the header handed to [printf] and the characters handed to
    [putchar], in order; [None] stands for undefined behaviour: a read past
    the end of the buffer or an overflow of an [int] counter or index. *)
Module DebugBuffer.

Definition NL : ascii := "010"%char.

(** [(data[byte_index] >> bit_index) & 0x01] for column [x] of row [y];
    [/] and [%] of C truncate. *)
Definition pixel (data : list Z) (x y : Z) : option Z :=
  let byte_index := y * 16 + Z.quot x 8 in
  let bit_index := 7 - Z.rem x 8 in
  if Libc.INT_MAX <? byte_index then None
  else match nth_error data (Z.to_nat byte_index) with
       | Some b => Some (Z.land (Z.shiftr b bit_index) 1)
       | None => None
       end.

(** [putchar(pixel ? '*' : '-')]. *)
Definition pixel_char (p : Z) : ascii := if p =? 0 then "-"%char else "*"%char.

(** The inner loop from column [x] on, with [n] columns left. *)
Fixpoint print_row (n : nat) (data : list Z) (x y : Z) : option string :=
  match n with
  | O => Some EmptyString
  | S n' =>
      match pixel data x y with
      | None => None
      | Some p =>
          match print_row n' data (x + 1) y with
          | None => None
          | Some r => Some (String (pixel_char p) r)
          end
      end
  end.

(** The outer loop from row [y] on, with [n] rows left; each row is
    followed by a line feed. *)
Fixpoint print_rows (n : nat) (data : list Z) (w y : Z) : option string :=
  match n with
  | O => Some EmptyString
  | S n' =>
      match print_row (Z.to_nat w) data 0 y with
      | None => None
      | Some r =>
          match print_rows n' data w (y + 1) with
          | None => None
          | Some t => Some (r ++ String NL t)
          end
      end
  end.

Definition header (w h : Z) : event :=
  EvPrintf Stdout ("=== LVGL DRAW BUFFER (%dx%d) ===" ++ LF) [ArgInt w; ArgInt h].

(** The counter [y] is an [int] that runs up to [h], and in every row the
    counter [x] is an [int] that runs up to [w]: a run with rows overflows
    [y] when [h] is beyond [INT_MAX], and [x] when [w] is.  With no rows
    the loops are not entered and neither [w] nor the buffer matters. *)
Definition debug_print_lvgl_buffer (data : list Z) (w h : Z) : option (event * string) :=
  if ((h <=? Libc.INT_MAX) && ((h =? 0) || (w <=? Libc.INT_MAX)))%bool
  then match print_rows (Z.to_nat h) data w 0 with
       | Some t => Some (header w h, t)
       | None => None
       end
  else None.

(** Where the character of column [x] of row [y] stands in the text. *)
Definition position (w x y : Z) : nat := Z.to_nat (y * (w + 1) + x).

(** The byte and the bit that column [x] of row [y] shows. *)
Definition shown_bit (data : list Z) (x y : Z) : bool :=
  Z.testbit (nth (Z.to_nat (y * 16 + x / 8)) data 0) (7 - x mod 8).

(** The last byte a dump of [w] columns and [h] rows reads. *)
Definition last_byte (w h : Z) : Z := (h - 1) * 16 + (w - 1) / 8.

(** The text of a dump, empty when the dump is undefined. *)
Definition dump_text (data : list Z) (w h : Z) : string :=
  match debug_print_lvgl_buffer data w h with
  | Some (_, t) => t
  | None => EmptyString
  end.

(** A 2-row, 12-column picture, and two rows of a 130-column one. *)
Definition sample_data : list Z :=
  [165; 240; 0; 0; 0; 0; 0; 0; 0; 0; 0; 0; 0; 0; 0; 0; 60; 15].

Definition wide_data : list Z := List.repeat 165 33.

End DebugBuffer.

(** ** Sample data

    A registry, environments and initial settings on which the results
    below are run. *)
Definition sample_backends : list string := ["SDL"; "FBDEV"].
Definition sample_settings : simulator_settings_t := mk_settings 0 0 false false.
Definition empty_env : environ := fun _ => None.
Definition sized_env : environ :=
  fun name =>
    if String.eqb name "LV_SIM_WINDOW_WIDTH" then Some "1024"
    else if String.eqb name "LV_SIM_WINDOW_HEIGHT" then Some "600"
    else None.
Definition posix_env : environ :=
  fun name => if String.eqb name "POSIXLY_CORRECT" then Some "1" else None.
Definition init_succeeds : option string -> simulator_settings_t -> Z := fun _ _ => 0.
Definition init_fails : option string -> simulator_settings_t -> Z := fun _ _ => -1.
Definition init_fails_for_evdev : option string -> simulator_settings_t -> Z :=
  fun name _ =>
    match name with
    | Some n => if String.eqb n "EVDEV" then -1 else 0
    | None => 0
    end.

(** Command lines used below. *)
Definition argv_plain : list string := ["lvglsim"].
Definition argv_help_late : list string := ["lvglsim"; "-f"; "-W"; "640"; "-h"; "-x"].
Definition argv_bad_then_help : list string := ["lvglsim"; "-x"; "-h"].
Definition argv_help_then_bad : list string := ["lvglsim"; "-h"; "-x"].
Definition argv_fullscreen : list string := ["lvglsim"; "-f"].
Definition argv_width_100 : list string := ["lvglsim"; "-W"; "100"].
Definition argv_no_such_backend : list string := ["lvglsim"; "-b"; "nosuch"].
Definition argv_help_then_backend : list string := ["lvglsim"; "-h"; "-b"; "nosuch"].
Definition argv_missing_argument : list string := ["lvglsim"; "-m"; "-W"].
Definition argv_second_backend_bad : list string :=
  ["lvglsim"; "-b"; "SDL"; "-b"; "nosuch"; "-f"].
Definition argv_two_backends : list string :=
  ["lvglsim"; "-b"; "FBDEV"; "-fm"; "-bSDL"; "-H480"].
Definition argv_sizes : list string := ["lvglsim"; "-W"; "-5"; "-H"; "tall"].
Definition argv_px : list string := ["lvglsim"; "-W"; "12px"].
Definition argv_operand_first : list string := ["lvglsim"; "demo"; "-f"].
Definition argv_after_dashes : list string := ["lvglsim"; "--"; "-h"].
Definition argv_width_dash_h : list string := ["lvglsim"; "-W"; "-h"].
Definition argv_two_widths : list string := ["lvglsim"; "-W"; "100"; "-W"; "200"].
Definition argv_long_help : list string := ["lvglsim"; "--help"].
Definition maximized_settings : simulator_settings_t := mk_settings 0 0 false true.

(** ** The launcher *)

Section Launcher.

(** The registry filled by [driver_backends_register()]: the names of the
    backends compiled in.  The table lives in [src/lib/driver_backends.c]. *)
Variable backends : list string.

(** The backend the dispatcher falls back on when it is given no name, a
    fixed entry of the same table. *)
Variable default_backend : string.

(** What [driver_backends_init_backend] answers for a backend name under
    given settings: 0 on success, -1 on failure.  The routine drives real
    devices; the launcher only looks at its return value. *)
Variable driver_backends_init_backend : option string -> simulator_settings_t -> Z.

(** The status [die] hands to [exit]. *)
Variable die_status : Z.

(** Build-time configuration of the toolkit ([lv_conf.h], [lv_version.h]). *)
Variable LV_USE_EVDEV : bool.
Variables LVGL_VERSION_MAJOR LVGL_VERSION_MINOR LVGL_VERSION_PATCH : Z.
Variable LVGL_VERSION_INFO : string.

(** Modelled from the spec: [die] of [src/lib/simulator_util.c], which is
    not among the sources; it prints its message and terminates the process
    with a non-zero status ([die_status], assumed non-zero where a claim
    needs it). *)
Definition die {A} (fmt : string) (args : list printf_arg) : M A :=
  fprintf Stderr fmt args ;; exit die_status.

(** Modelled from the spec: [driver_backends_is_supported] of
    [src/lib/driver_backends.c]; it answers whether the name is in the
    static registry. *)
Definition driver_backends_is_supported (name : string) : Z :=
  if existsb (String.eqb name) backends then 1 else 0.

(** Modelled from the spec: the routines of [src/lib/driver_backends.c]
    and of the toolkit that [main.c] calls are not among the sources.  Each
    is an action in the trace; in line with the specification ("read once by
    backend initialization, then immutable") none of them writes the
    settings record or the selected-backend pointer. *)
Definition driver_backends_register : M unit := call EvRegister.
Definition driver_backends_print_supported : M unit := call EvPrintSupported.
Definition lv_init : M unit := call EvLvInit.
Definition lv_demo_widgets : M unit := call EvDemoWidgets.
Definition lv_demo_widgets_start_slideshow : M unit := call EvSlideshow.
Definition driver_backends_run_loop : M unit := call EvRunLoop.

(** Modelled from the spec: a call of the dispatcher
    [driver_backends_init_backend]; it is handed the name, reads the
    settings and answers 0 or -1. *)
Definition init_backend (name : option string) : M Z :=
  fun w => Ret (driver_backends_init_backend name (settings w)) (emit [EvInitBackend name] w).

Definition print_lvgl_version : M unit :=
  fprintf Stdout ("%d.%d.%d-%s" ++ LF)
    [ArgInt LVGL_VERSION_MAJOR; ArgInt LVGL_VERSION_MINOR;
     ArgInt LVGL_VERSION_PATCH; ArgStr LVGL_VERSION_INFO].

Definition usage_line_0 : string :=
  LF ++ "lvglsim [-V] [-B] [-f] [-m] [-b backend_name] [-W window_width] [-H window_height]"
     ++ LF ++ LF.

Definition print_usage : M unit :=
  fprintf Stdout usage_line_0 [] ;;
  fprintf Stdout ("-V print LVGL version" ++ LF) [] ;;
  fprintf Stdout ("-B list supported backends" ++ LF) [] ;;
  fprintf Stdout ("-f fullscreen" ++ LF) [] ;;
  fprintf Stdout ("-m maximize" ++ LF) [].

Definition optstring : string := "b:fmW:H:BVh".

(** glibc lets [getopt] stop at the first non-option when POSIXLY_CORRECT
    is in the environment. *)
Definition posixly_correct (env : environ) : bool :=
  match getenv env "POSIXLY_CORRECT" with Some _ => true | None => false end.

(** [getopt(argc, argv, optstring)] on the process state. *)
Definition getopt (env : environ) (argv : list string) (opts : string) : M (option ascii) :=
  fun w =>
    let '(r, g, evs) :=
      Libc.getopt_call (posixly_correct env) opts (hd "" argv) (gopt w) in
    Ret r (emit evs (with_gopt g w)).

(** Reading [optarg] where the code hands it to a routine that
    dereferences it. *)
Definition read_optarg : M string :=
  fun w => match optarg (gopt w) with
           | Some s => Ret s w
           | None => Undef w
           end.

Definition read_optopt : M ascii := fun w => Ret (optopt (gopt w)) w.

(** The [switch (opt)] of [configure_simulator].  A switch without default
    does nothing for a value that matches no case; [strdup] is taken to
    succeed. *)
Definition configure_case (opt : ascii) : M unit :=
  if Ascii.eqb opt "h" then
    print_usage ;; exit EXIT_SUCCESS
  else if Ascii.eqb opt "V" then
    print_lvgl_version ;; exit EXIT_SUCCESS
  else if Ascii.eqb opt "B" then
    driver_backends_print_supported ;; exit EXIT_SUCCESS
  else if Ascii.eqb opt "b" then
    name <- read_optarg ;;
    (if driver_backends_is_supported name =? 0
     then die ("error no such backend: %s" ++ LF) [ArgStr name]
     else ret tt) ;;
    modify (with_backend (Some name))
  else if Ascii.eqb opt "f" then
    modify (with_settings (set_fullscreen true))
  else if Ascii.eqb opt "m" then
    modify (with_settings (set_maximize true))
  else if Ascii.eqb opt "W" then
    a <- read_optarg ;;
    modify (with_settings (set_window_width (Libc.atoi a)))
  else if Ascii.eqb opt "H" then
    a <- read_optarg ;;
    modify (with_settings (set_window_height (Libc.atoi a)))
  else if Ascii.eqb opt ":" then
    print_usage ;;
    c <- read_optopt ;;
    die ("Option -%c requires an argument." ++ LF) [ArgChar c]
  else if Ascii.eqb opt "?" then
    print_usage ;;
    c <- read_optopt ;;
    die ("Unknown option -%c." ++ LF) [ArgChar c]
  else ret tt.

(** How much of the command line [getopt] still has to look at. *)
Definition argv_size (l : list string) : nat :=
  fold_right (fun a n => S (String.length a + n))%nat 0%nat l.

Definition scan_measure (g : getopt_state) : nat :=
  (String.length (nextchar g) + argv_size (rest g))%nat.

(** Lines 82-89: the backend pointer is cleared, the registry is filled and
    the window size takes its value from the environment, or 800x480. *)
Definition configure_defaults (env : environ) : M unit :=
  modify (with_backend None) ;;
  driver_backends_register ;;
  let env_w := getenv env "LV_SIM_WINDOW_WIDTH" in
  let env_h := getenv env "LV_SIM_WINDOW_HEIGHT" in
  modify (with_settings (set_window_width
            (Libc.atoi (match env_w with Some s => s | None => "800" end)))) ;;
  modify (with_settings (set_window_height
            (Libc.atoi (match env_h with Some s => s | None => "480" end)))).

(** Lines 92-132: the option loop, with an iteration budget. *)
Definition configure_options (fuel : nat) (env : environ) (argv : list string) : M unit :=
  while_some fuel (getopt env argv optstring) configure_case.

(** [configure_simulator(argc, argv)].  The budget of the option loop is
    one more than the size of the command line, which the loop never
    exhausts (see [configure_simulator_total]). *)
Definition configure_simulator (env : environ) (argv : list string) : M unit :=
  configure_defaults env ;;
  configure_options (S (scan_measure (Libc.getopt_init argv))) env argv.

(** [main] of the standard build.  The run loop is taken to return (the
    window was closed). *)
Definition main (env : environ) (argv : list string) : M Z :=
  configure_simulator env argv ;;
  lv_init ;;
  r <- (fun w => init_backend (selected_backend w) w) ;;
  (if r =? -1 then die "Failed to initialize display backend" [] else ret tt) ;;
  (if LV_USE_EVDEV
   then r' <- init_backend (Some "EVDEV") ;;
        if r' =? -1 then die "Failed to initialize evdev" [] else ret tt
   else ret tt) ;;
  lv_demo_widgets ;;
  lv_demo_widgets_start_slideshow ;;
  driver_backends_run_loop ;;
  ret 0.

(** The part of [main] that follows [configure_simulator]. *)
Definition main_after_configure : M Z :=
  lv_init ;;
  r <- (fun w => init_backend (selected_backend w) w) ;;
  (if r =? -1 then die "Failed to initialize display backend" [] else ret tt) ;;
  (if LV_USE_EVDEV
   then r' <- init_backend (Some "EVDEV") ;;
        if r' =? -1 then die "Failed to initialize evdev" [] else ret tt
   else ret tt) ;;
  lv_demo_widgets ;;
  lv_demo_widgets_start_slideshow ;;
  driver_backends_run_loop ;;
  ret 0.

Definition draw_char_example : M unit := call EvDrawCharExample.

(** [main] of the build without [USE_STANDARD].  [fuel] bounds the rounds
    of the closing [while (1)]. *)
Definition main_alt (fuel : nat) (env : environ) (argv : list string) : M Z :=
  driver_backends_register ;;
  modify (with_backend (Some "FBDEV")) ;;
  lv_init ;;
  r <- (fun w => init_backend (selected_backend w) w) ;;
  (if r =? -1 then die "Failed to initialize display backend" [] else ret tt) ;;
  draw_char_example ;;
  driver_backends_run_loop ;;
  while_some fuel (ret (if 1 =? 0 then None else Some tt)) (fun _ => ret tt) ;;
  ret 0.

(** The process image at the call of [main]: [settings] as its defining
    unit left it, the static pointer [NULL], [getopt] at [argv[1]], nothing
    done yet. *)
Definition process_start (s0 : simulator_settings_t) (argv : list string) : world :=
  mk_world s0 None (Libc.getopt_init argv) [].

(** ** The flags of a command line

    What the successive calls of [getopt] hand to the loop, independently of
    what the loop does with them: the option character returned, the
    [getopt] globals after the call and what the call wrote to stderr. *)
Record delivery : Type := mk_delivery {
  d_opt   : ascii;
  d_state : getopt_state;
  d_err   : list event
}.

Definition d_arg (d : delivery) : option string := optarg (d_state d).

Fixpoint getopt_scan (fuel : nat) (posix : bool) (opts argv0 : string) (g : getopt_state)
    : list delivery :=
  match fuel with
  | O => []
  | S n =>
      match Libc.getopt_call posix opts argv0 g with
      | (Some c, g', evs) => mk_delivery c g' evs :: getopt_scan n posix opts argv0 g'
      | (None, _, _) => []
      end
  end.

(** The [getopt] globals once the scan has returned -1. *)
Fixpoint getopt_end (fuel : nat) (posix : bool) (opts argv0 : string) (g : getopt_state)
    : getopt_state :=
  match fuel with
  | O => g
  | S n =>
      match Libc.getopt_call posix opts argv0 g with
      | (Some c, g', evs) => getopt_end n posix opts argv0 g'
      | (None, g', _) => g'
      end
  end.

(** The flags of the command line [argv], in the order [getopt] finds them. *)
Definition flags (env : environ) (argv : list string) : list delivery :=
  getopt_scan (S (scan_measure (Libc.getopt_init argv))) (posixly_correct env)
    optstring (hd "" argv) (Libc.getopt_init argv).

(** Handling the flags of a list one after the other, as the loop does. *)
Fixpoint run_flags (ds : list delivery) : M unit :=
  match ds with
  | [] => ret tt
  | d :: ds' =>
      modify (fun w => emit (d_err d) (with_gopt (d_state d) w)) ;;
      configure_case (d_opt d) ;;
      run_flags ds'
  end.

Definition supported (name : string) : bool :=
  negb (driver_backends_is_supported name =? 0).

(** A flag whose case ends the process: -h, -V, -B, an error reported by
    [getopt], or -b with a name the registry does not know. *)
Definition stops (d : delivery) : bool :=
  let c := d_opt d in
  (Ascii.eqb c "h" || Ascii.eqb c "V" || Ascii.eqb c "B"
   || Ascii.eqb c ":" || Ascii.eqb c "?"
   || (Ascii.eqb c "b" && match d_arg d with
                          | Some name => negb (supported name)
                          | None => true
                          end))%bool.

Definition passes (d : delivery) : bool := negb (stops d).

Definition is_flag (c : ascii) (d : delivery) : bool := Ascii.eqb (d_opt d) c.

(** The argument of the last flag [c] of a list, if there is one. *)
Fixpoint last_arg (c : ascii) (ds : list delivery) : option string :=
  match ds with
  | [] => None
  | d :: ds' =>
      match last_arg c ds' with
      | Some a => Some a
      | None => if is_flag c d then d_arg d else None
      end
  end.

(** What [getopt] can hand over under [optstring]: a flag with its
    argument, a flag without argument, or '?' after one of its two
    complaints, with the offending character in [optopt]. *)
Definition invalid_option (argv0 : string) (c : ascii) : event :=
  EvPrintf Stderr ("%s: invalid option -- '%c'" ++ LF) [ArgStr argv0; ArgChar c].

Definition requires_argument (argv0 : string) (c : ascii) : event :=
  EvPrintf Stderr ("%s: option requires an argument -- '%c'" ++ LF) [ArgStr argv0; ArgChar c].

Definition known_flags : list ascii :=
  ["b"; "f"; "m"; "W"; "H"; "B"; "V"; "h"]%char.

Definition delivered_ok (argv0 : string) (d : delivery) : Prop :=
  (In (d_opt d) ["b"; "W"; "H"]%char /\ (exists a, d_arg d = Some a) /\ d_err d = [])
  \/ (In (d_opt d) ["f"; "m"; "B"; "V"; "h"]%char /\ d_arg d = None /\ d_err d = [])
  \/ (d_opt d = "?"%char /\ d_arg d = None /\
      let c := optopt (d_state d) in
      (~ In c known_flags /\ d_err d = [invalid_option argv0 c])
      \/ (In c ["b"; "W"; "H"]%char /\ d_err d = [requires_argument argv0 c])).

(** The process state when the option loop is entered. *)
Definition defaults_world (env : environ) (s0 : simulator_settings_t) (argv : list string)
    : world :=
  mk_world
    (mk_settings
       (Libc.atoi (match getenv env "LV_SIM_WINDOW_WIDTH" with Some s => s | None => "800" end))
       (Libc.atoi (match getenv env "LV_SIM_WINDOW_HEIGHT" with Some s => s | None => "480" end))
       (fullscreen s0) (maximize s0))
    None (Libc.getopt_init argv) [EvRegister].

(** What [print_usage] writes. *)
Definition usage_events : list event :=
  [EvPrintf Stdout usage_line_0 [];
   EvPrintf Stdout ("-V print LVGL version" ++ LF) [];
   EvPrintf Stdout ("-B list supported backends" ++ LF) [];
   EvPrintf Stdout ("-f fullscreen" ++ LF) [];
   EvPrintf Stdout ("-m maximize" ++ LF) []].

(** An action of the backend dispatcher, the demo or the run loop. *)
Definition starts_something (e : event) : bool :=
  match e with
  | EvLvInit | EvInitBackend _ | EvDemoWidgets | EvSlideshow
  | EvDrawCharExample | EvRunLoop => true
  | _ => false
  end.

(** What -h, -V and -B ask for. *)
Definition requested_output (c : ascii) : list event :=
  if Ascii.eqb c "h" then usage_events
  else if Ascii.eqb c "V" then
    [EvPrintf Stdout ("%d.%d.%d-%s" ++ LF)
       [ArgInt LVGL_VERSION_MAJOR; ArgInt LVGL_VERSION_MINOR;
        ArgInt LVGL_VERSION_PATCH; ArgStr LVGL_VERSION_INFO]]
  else [EvPrintSupported].

Definition is_init_backend (e : event) : bool :=
  match e with
  | EvInitBackend _ => true
  | _ => false
  end.

(** Modelled from the spec: which backend [driver_backends_init_backend]
    of [src/lib/driver_backends.c] (not among the sources) initialises;
    "given an optional backend name, select a default or named backend
    from a static list". *)
Definition dispatcher_choice (name : option string) : option string :=
  match name with
  | None => Some default_backend
  | Some n => if supported n then Some n else None
  end.

Definition starts_demo_or_loop (e : event) : bool :=
  match e with
  | EvDemoWidgets | EvSlideshow | EvDrawCharExample | EvRunLoop => true
  | _ => false
  end.

(** What [main] has done once the backend refused to initialise. *)
Definition init_failure_events (name : option string) : list event :=
  [EvLvInit; EvInitBackend name;
   EvPrintf Stderr "Failed to initialize display backend" []].

(** The option characters of [optstring], by kind. *)
Definition has_argument (c : ascii) : bool :=
  (Ascii.eqb c "b" || Ascii.eqb c "W" || Ascii.eqb c "H")%bool.

Definition plain_flag (c : ascii) : bool :=
  (Ascii.eqb c "f" || Ascii.eqb c "m" || Ascii.eqb c "B"
   || Ascii.eqb c "V" || Ascii.eqb c "h")%bool.

(** ** Kinds of output *)

Definition is_printf (e : event) : bool :=
  match e with
  | EvPrintf _ _ _ => true
  | _ => false
  end.

Definition is_stderr (e : event) : bool :=
  match e with
  | EvPrintf Stderr _ _ => true
  | _ => false
  end.

(** The message of the ':' case of the switch. *)
Definition says_requires_argument (e : event) : bool :=
  match e with
  | EvPrintf _ fmt _ => String.eqb fmt ("Option -%c requires an argument." ++ LF)
  | _ => false
  end.

(** How a run may end, given the trace [t0] it started from: it returns
    having printed nothing; it exits with 0 having written to stdout only;
    or it exits through [die], the last thing written being a message on
    stderr.  The message of the ':' case is in none of them. *)
Definition ends_well {A} (t0 : list event) (r : result A) : Prop :=
  match r with
  | Ret _ w' => trace w' = t0
  | Exit st w' =>
      exists evs,
        trace w' = (t0 ++ evs)%list
        /\ existsb says_requires_argument evs = false
        /\ ((st = 0 /\ existsb is_stderr evs = false)
            \/ (st = die_status
                /\ exists pre fmt args, evs = (pre ++ [EvPrintf Stderr fmt args])%list))
  | Fuel _ | Undef _ => False
  end.

(** ** Basic facts

    The monad, the scan of the command line and the loop. *)

Lemma bind_Ret {A B} (m : M A) (k : A -> M B) w a w' :
  m w = Ret a w' -> bind m k w = k a w'.
Proof. intros H. unfold bind. now rewrite H. Qed.

Lemma bind_Exit {A B} (m : M A) (k : A -> M B) w st w' :
  m w = Exit st w' -> bind m k w = Exit st w'.
Proof. intros H. unfold bind. now rewrite H. Qed.

Lemma skip_nonoptions_size l :
  (argv_size (Libc.skip_nonoptions l) <= argv_size l)%nat.
Proof.
  induction l as [|a l IH]; simpl; [lia|].
  destruct (Libc.is_nonoption a); simpl; lia.
Qed.

Lemma short_option_measure opts argv0 c cs l oo r g evs :
  Libc.short_option opts argv0 c cs l oo = (r, g, evs) ->
  (scan_measure g <= String.length cs + argv_size l)%nat.
Proof.
  unfold Libc.short_option, scan_measure.
  repeat match goal with
         | |- context [match ?x with _ => _ end] => destruct x
         end;
    intros H; inversion H; subst; simpl; lia.
Qed.

Lemma getopt_call_measure posix opts argv0 g c g' evs :
  Libc.getopt_call posix opts argv0 g = (Some c, g', evs) ->
  (scan_measure g' < scan_measure g)%nat.
Proof.
  unfold Libc.getopt_call.
  destruct (nextchar g) as [|c0 cs] eqn:Enc.
  - assert (Hsz : (argv_size (if posix then rest g else Libc.skip_nonoptions (rest g))
                   <= argv_size (rest g))%nat).
    { destruct posix; [lia | apply skip_nonoptions_size]. }
    destruct (if posix then rest g else Libc.skip_nonoptions (rest g)) as [|a l'];
      [discriminate|].
    destruct (String.eqb a "--"); [discriminate|].
    destruct a as [|a0 a']; [discriminate|].
    destruct (Ascii.eqb_spec a0 "-"%char) as [->|Hne].
    + destruct a' as [|c1 cs1]; [discriminate|].
      intros H. apply short_option_measure in H.
      unfold scan_measure at 2. rewrite Enc. simpl in *. lia.
    + destruct a0 as [[] [] [] [] [] [] [] []]; try discriminate.
      now contradiction Hne.
  - intros H. apply short_option_measure in H.
    unfold scan_measure at 2. rewrite Enc. simpl. lia.
Qed.

Lemma getopt_call_end_silent posix opts argv0 g g' evs :
  Libc.getopt_call posix opts argv0 g = (None, g', evs) -> evs = [].
Proof.
  unfold Libc.getopt_call, Libc.short_option.
  repeat match goal with
         | |- context [match ?x with _ => _ end] => destruct x
         end;
    intros H; inversion H; reflexivity.
Qed.

Lemma emit_nil w : emit [] w = w.
Proof. destruct w; unfold emit; simpl. now rewrite app_nil_r. Qed.

Ltac case_char c lit :=
  destruct (Ascii.eqb_spec c lit) as [->|?]; simpl.

(** The cases that let the loop go on leave the [getopt] globals and the
    trace alone. *)
Lemma configure_case_frame c w w' :
  configure_case c w = Ret tt w' ->
  gopt w' = gopt w /\ trace w' = trace w.
Proof.
  unfold configure_case.
  case_char c "h"%char; [discriminate|].
  case_char c "V"%char; [discriminate|].
  case_char c "B"%char; [discriminate|].
  case_char c "b"%char.
  { unfold bind, read_optarg. destruct (optarg (gopt w)); [|discriminate].
    destruct (driver_backends_is_supported s =? 0); simpl; [discriminate|].
    intros H; inversion H; subst; auto. }
  case_char c "f"%char; [intros H; inversion H; subst; auto|].
  case_char c "m"%char; [intros H; inversion H; subst; auto|].
  case_char c "W"%char.
  { unfold bind, read_optarg. destruct (optarg (gopt w)); [|discriminate].
    intros H; inversion H; subst; auto. }
  case_char c "H"%char.
  { unfold bind, read_optarg. destruct (optarg (gopt w)); [|discriminate].
    intros H; inversion H; subst; auto. }
  case_char c ":"%char; [discriminate|].
  case_char c "?"%char; [discriminate|].
  intros H; inversion H; subst; auto.
Qed.

Lemma run_flags_cons d ds w :
  run_flags (d :: ds) w
  = match configure_case (d_opt d) (emit (d_err d) (with_gopt (d_state d) w)) with
    | Ret _ w' => run_flags ds w'
    | Exit st w' => Exit st w'
    | Fuel w' => Fuel w'
    | Undef w' => Undef w'
    end.
Proof. reflexivity. Qed.

Lemma configure_options_S n env argv w :
  configure_options (S n) env argv w
  = match Libc.getopt_call (posixly_correct env) optstring (hd "" argv) (gopt w) with
    | (Some c, g', evs) =>
        match configure_case c (emit evs (with_gopt g' w)) with
        | Ret _ w' => configure_options n env argv w'
        | Exit st w' => Exit st w'
        | Fuel w' => Fuel w'
        | Undef w' => Undef w'
        end
    | (None, g', evs) => Ret tt (emit evs (with_gopt g' w))
    end.
Proof.
  unfold configure_options. simpl. unfold bind, getopt.
  destruct (Libc.getopt_call (posixly_correct env) optstring (hd "" argv) (gopt w))
    as [[[c|] g'] evs]; reflexivity.
Qed.

(** The option loop handles exactly the flags of the scan, in order. *)
Lemma configure_options_scan env argv fuel :
  forall w,
    (scan_measure (gopt w) < fuel)%nat ->
    configure_options fuel env argv w
    = match run_flags (getopt_scan fuel (posixly_correct env) optstring (hd "" argv) (gopt w)) w with
      | Ret _ w' =>
          Ret tt (with_gopt (getopt_end fuel (posixly_correct env) optstring (hd "" argv) (gopt w)) w')
      | r => r
      end.
Proof.
  induction fuel as [|n IH]; intros w Hm; [lia|].
  rewrite configure_options_S. cbn [getopt_scan getopt_end].
  destruct (Libc.getopt_call (posixly_correct env) optstring (hd "" argv) (gopt w))
    as [[[c|] g'] evs] eqn:E.
  - apply getopt_call_measure in E as Hlt.
    rewrite run_flags_cons. cbn [d_opt d_err d_state].
    destruct (configure_case c (emit evs (with_gopt g' w))) as [[] w2| | |] eqn:Ec;
      try reflexivity.
    apply configure_case_frame in Ec as [Hg _]. simpl in Hg.
    rewrite IH by (rewrite Hg; lia). now rewrite Hg.
  - apply getopt_call_end_silent in E as ->. now rewrite emit_nil.
Qed.

(** [short_option] under [optstring], by the kind of the character. *)
Lemma short_option_optstring argv0 c cs l oo :
  Libc.short_option optstring argv0 c cs l oo
  = if has_argument c then
      match cs with
      | String _ _ => (Some c, mk_getopt (Some cs) oo "" l, [])
      | EmptyString =>
          match l with
          | [] => (Some "?"%char, mk_getopt None c "" [], [requires_argument argv0 c])
          | a :: l' => (Some c, mk_getopt (Some a) oo "" l', [])
          end
      end
    else if plain_flag c then (Some c, mk_getopt None oo cs l, [])
    else (Some "?"%char, mk_getopt None c cs l, [invalid_option argv0 c]).
Proof.
  destruct c as [[] [] [] [] [] [] [] []]; reflexivity.
Qed.

Lemma has_argument_spec c : has_argument c = true <-> In c ["b"; "W"; "H"]%char.
Proof.
  unfold has_argument. rewrite !orb_true_iff, !Ascii.eqb_eq. simpl.
  intuition congruence.
Qed.

Lemma plain_flag_spec c : plain_flag c = true <-> In c ["f"; "m"; "B"; "V"; "h"]%char.
Proof.
  unfold plain_flag. rewrite !orb_true_iff, !Ascii.eqb_eq. simpl.
  intuition congruence.
Qed.

Lemma known_flags_spec c :
  In c known_flags <-> has_argument c = true \/ plain_flag c = true.
Proof.
  rewrite has_argument_spec, plain_flag_spec. unfold known_flags. simpl.
  intuition congruence.
Qed.

Lemma short_option_ok argv0 c cs l oo r g evs :
  Libc.short_option optstring argv0 c cs l oo = (Some r, g, evs) ->
  delivered_ok argv0 (mk_delivery r g evs).
Proof.
  rewrite short_option_optstring. unfold delivered_ok, d_arg.
  cbn [d_opt d_state d_err].
  destruct (has_argument c) eqn:Ea.
  - apply has_argument_spec in Ea as Hin.
    destruct cs as [|c' cs']; [destruct l as [|a l']|];
      intros H; inversion H; subst; cbn [optarg optopt]; eauto 10.
  - destruct (plain_flag c) eqn:Ep; intros H; inversion H; subst; cbn [optarg optopt].
    + apply plain_flag_spec in Ep. right. left. auto.
    + do 2 right. repeat split. left. split; [|reflexivity].
      rewrite known_flags_spec, Ea, Ep. intros [K|K]; discriminate K.
Qed.

Lemma getopt_call_ok posix argv0 g r g' evs :
  Libc.getopt_call posix optstring argv0 g = (Some r, g', evs) ->
  delivered_ok argv0 (mk_delivery r g' evs).
Proof.
  unfold Libc.getopt_call.
  destruct (nextchar g) as [|c cs]; [|apply short_option_ok].
  destruct (if posix then rest g else Libc.skip_nonoptions (rest g)) as [|a l'];
    [discriminate|].
  destruct (String.eqb a "--"); [discriminate|].
  destruct a as [|a0 [|c cs]]; try discriminate.
  - destruct a0 as [[] [] [] [] [] [] [] []]; discriminate.
  - destruct a0 as [[] [] [] [] [] [] [] []]; try discriminate.
    apply short_option_ok.
Qed.

(** Every flag of a scan under [optstring] has the expected shape. *)
Lemma getopt_scan_ok posix argv0 fuel :
  forall g, Forall (delivered_ok argv0) (getopt_scan fuel posix optstring argv0 g).
Proof.
  induction fuel as [|n IH]; intros g; simpl; [constructor|].
  destruct (Libc.getopt_call posix optstring argv0 g) as [[[c|] g'] evs] eqn:E;
    constructor; [now apply getopt_call_ok in E | apply IH].
Qed.

Lemma flags_ok env argv : Forall (delivered_ok (hd "" argv)) (flags env argv).
Proof. apply getopt_scan_ok. Qed.

(** The scan does not depend on the budget once it covers the command line. *)
Lemma getopt_scan_enough posix opts argv0 fuel :
  forall g fuel',
    (scan_measure g < fuel)%nat -> (scan_measure g < fuel')%nat ->
    getopt_scan fuel posix opts argv0 g = getopt_scan fuel' posix opts argv0 g.
Proof.
  induction fuel as [|n IH]; intros g [|n'] H H'; try lia.
  simpl. destruct (Libc.getopt_call posix opts argv0 g) as [[[c|] g'] evs] eqn:E; auto.
  apply getopt_call_measure in E. f_equal. apply IH; lia.
Qed.

Lemma run_flags_app pre ds :
  forall w,
    run_flags (pre ++ ds) w
    = match run_flags pre w with
      | Ret _ w1 => run_flags ds w1
      | r => r
      end.
Proof.
  induction pre as [|d pre IH]; intros w; [reflexivity|].
  rewrite <- app_comm_cons, !run_flags_cons.
  destruct (configure_case (d_opt d) (emit (d_err d) (with_gopt (d_state d) w)));
    auto.
Qed.

(** What the cases that return do to the process state. *)
Lemma configure_case_Ret c w w' :
  configure_case c w = Ret tt w' ->
  (c = "b"%char /\ exists name, optarg (gopt w) = Some name
                   /\ driver_backends_is_supported name <> 0
                   /\ w' = with_backend (Some name) w)
  \/ (c = "f"%char /\ w' = with_settings (set_fullscreen true) w)
  \/ (c = "m"%char /\ w' = with_settings (set_maximize true) w)
  \/ (c = "W"%char /\ exists a, optarg (gopt w) = Some a
                      /\ w' = with_settings (set_window_width (Libc.atoi a)) w)
  \/ (c = "H"%char /\ exists a, optarg (gopt w) = Some a
                      /\ w' = with_settings (set_window_height (Libc.atoi a)) w)
  \/ (~ In c ["b"; "f"; "m"; "W"; "H"]%char /\ w' = w).
Proof.
  unfold configure_case.
  case_char c "h"%char; [discriminate|].
  case_char c "V"%char; [discriminate|].
  case_char c "B"%char; [discriminate|].
  case_char c "b"%char.
  { unfold bind, read_optarg. destruct (optarg (gopt w)) as [name|]; [|discriminate].
    destruct (Z.eqb_spec (driver_backends_is_supported name) 0); simpl; [discriminate|].
    intros H; inversion H; subst. left. eauto 10. }
  case_char c "f"%char; [intros H; inversion H; subst; auto|].
  case_char c "m"%char; [intros H; inversion H; subst; auto|].
  case_char c "W"%char.
  { unfold bind, read_optarg. destruct (optarg (gopt w)) as [a|]; [|discriminate].
    intros H; inversion H; subst. do 3 right. left. eauto. }
  case_char c "H"%char.
  { unfold bind, read_optarg. destruct (optarg (gopt w)) as [a|]; [|discriminate].
    intros H; inversion H; subst. do 4 right. left. eauto. }
  case_char c ":"%char; [discriminate|].
  case_char c "?"%char; [discriminate|].
  intros H; inversion H; subst. do 5 right. split; [|reflexivity].
  intros K; repeat destruct K as [K|K]; try congruence; contradiction K.
Qed.

Lemma configure_defaults_start env s0 argv :
  configure_defaults env (process_start s0 argv) = Ret tt (defaults_world env s0 argv).
Proof. reflexivity. Qed.

(** [configure_simulator] handles the flags of its command line, starting
    from the defaults. *)
Lemma configure_simulator_flags env argv s0 :
  configure_simulator env argv (process_start s0 argv)
  = match run_flags (flags env argv) (defaults_world env s0 argv) with
    | Ret _ w' =>
        Ret tt (with_gopt (getopt_end (S (scan_measure (Libc.getopt_init argv)))
                             (posixly_correct env) optstring (hd "" argv)
                             (Libc.getopt_init argv)) w')
    | r => r
    end.
Proof.
  unfold configure_simulator.
  rewrite (bind_Ret _ _ _ _ _ (configure_defaults_start env s0 argv)).
  rewrite configure_options_scan by (simpl; lia).
  reflexivity.
Qed.

Lemma main_split env argv w :
  main env argv w = (configure_simulator env argv ;; main_after_configure) w.
Proof. reflexivity. Qed.

Lemma print_usage_run w : print_usage w = Ret tt (emit usage_events w).
Proof.
  destruct w. unfold print_usage, fprintf, call, modify, bind, emit. simpl.
  repeat rewrite <- app_assoc. reflexivity.
Qed.

Lemma passes_not_stops d : passes d = true -> stops d = false.
Proof. unfold passes. now destruct (stops d). Qed.

(** A flag that does not stop the process changes neither the trace nor
    anything but its own field. *)
Lemma passing_flag argv0 d w :
  delivered_ok argv0 d -> passes d = true ->
  exists w1,
    configure_case (d_opt d) (emit (d_err d) (with_gopt (d_state d) w)) = Ret tt w1
    /\ trace w1 = trace w.
Proof.
  intros Hok Hp. apply passes_not_stops in Hp. unfold stops in Hp.
  destruct d as [c g evs]. unfold delivered_ok, d_arg in *. simpl in *.
  destruct Hok as [(Hin & (a & Ha) & ->) | [(Hin & Ha & ->) | (-> & _)]].
  - rewrite Ha in Hp.
    destruct Hin as [<-|[<-|[<-|[]]]]; simpl in Hp;
      unfold configure_case, bind, read_optarg, modify; simpl; rewrite Ha.
    + unfold supported in Hp. rewrite negb_involutive in Hp.
      destruct (driver_backends_is_supported a =? 0); [discriminate|].
      simpl. eexists; split; [reflexivity|]. simpl. apply app_nil_r.
    + eexists; split; [reflexivity|]. simpl. apply app_nil_r.
    + eexists; split; [reflexivity|]. simpl. apply app_nil_r.
  - destruct Hin as [<-|[<-|[<-|[<-|[<-|[]]]]]]; simpl in Hp; try discriminate;
      unfold configure_case, modify; simpl;
      (eexists; split; [reflexivity|]; simpl; apply app_nil_r).
  - simpl in Hp. discriminate.
Qed.

Lemma run_flags_passes argv0 pre :
  forall w,
    Forall (delivered_ok argv0) pre -> forallb passes pre = true ->
    exists w1, run_flags pre w = Ret tt w1 /\ trace w1 = trace w.
Proof.
  induction pre as [|d pre IH]; intros w Hok Hp.
  - exists w. split; reflexivity.
  - inversion Hok as [|? ? Hd Hpre]; subst.
    simpl in Hp. apply andb_true_iff in Hp as [Hpd Hpp].
    destruct (passing_flag argv0 d w Hd Hpd) as (w1 & E1 & T1).
    destruct (IH w1 Hpre Hpp) as (w2 & E2 & T2).
    exists w2. rewrite run_flags_cons, E1. split; [exact E2 | congruence].
Qed.

(** The process state in which the loop takes up a flag that only passing
    flags precede, and what [main] does if that flag's case exits. *)
Lemma main_reaches env argv s0 pre d post :
  flags env argv = (pre ++ d :: post)%list ->
  forallb passes pre = true ->
  exists w1,
    run_flags pre (defaults_world env s0 argv) = Ret tt w1
    /\ trace w1 = [EvRegister]
    /\ forall st w',
         configure_case (d_opt d) (emit (d_err d) (with_gopt (d_state d) w1)) = Exit st w' ->
         configure_simulator env argv (process_start s0 argv) = Exit st w'
         /\ main env argv (process_start s0 argv) = Exit st w'.
Proof.
  intros Hf Hp.
  assert (Hok : Forall (delivered_ok (hd "" argv)) pre).
  { pose proof (flags_ok env argv) as H. rewrite Hf in H.
    now apply Forall_app in H as [H _]. }
  destruct (run_flags_passes _ pre (defaults_world env s0 argv) Hok Hp) as (w1 & E1 & T1).
  exists w1. repeat split; auto.
  - rewrite configure_simulator_flags, Hf, run_flags_app, E1, run_flags_cons, H.
    reflexivity.
  - rewrite main_split. apply bind_Exit.
    rewrite configure_simulator_flags, Hf, run_flags_app, E1, run_flags_cons, H.
    reflexivity.
Qed.

Lemma is_supported_spec name :
  driver_backends_is_supported name = 0 <-> ~ In name backends.
Proof.
  unfold driver_backends_is_supported.
  destruct (existsb (String.eqb name) backends) eqn:E.
  - split; [discriminate|]. intros H. exfalso. apply H.
    apply existsb_exists in E as (x & Hx & Heq).
    apply String.eqb_eq in Heq. now subst.
  - split; [|reflexivity]. intros _ Hin.
    assert (existsb (String.eqb name) backends = true); [|congruence].
    apply existsb_exists. exists name. split; [assumption | apply String.eqb_refl].
Qed.

Lemma supported_spec name : supported name = true <-> In name backends.
Proof.
  unfold supported. pose proof (is_supported_spec name) as [H1 H2].
  destruct (Z.eqb_spec (driver_backends_is_supported name) 0) as [E|E]; simpl.
  - split; [discriminate|]. intros Hin. exfalso. now apply H1.
  - split; [|reflexivity]. intros _.
    destruct (in_dec string_dec name backends) as [|Hn]; [assumption|].
    now apply H2 in Hn.
Qed.

(** When all the flags of a list were handled and the loop went on, none
    of them was a stopping one and nothing was printed. *)
Lemma run_flags_Ret argv0 ds :
  forall w w',
    Forall (delivered_ok argv0) ds ->
    run_flags ds w = Ret tt w' ->
    forallb passes ds = true /\ trace w' = trace w.
Proof.
  induction ds as [|d ds IH]; intros w w' Hok H.
  - inversion H; subst. split; reflexivity.
  - inversion Hok as [|? ? Hd Hds]; subst.
    rewrite run_flags_cons in H.
    destruct (configure_case (d_opt d) (emit (d_err d) (with_gopt (d_state d) w)))
      as [[] w1| | |] eqn:E; try discriminate.
    destruct (IH _ _ Hds H) as [Hp Ht].
    assert (Hpd : passes d = true).
    { unfold passes, stops, d_arg, supported.
      pose proof (configure_case_Ret _ _ _ E) as E'. simpl in E'.
      destruct E' as [(-> & name & -> & Hs & _)|[(-> & _)|[(-> & _)|[(-> & _)|[(-> & _)|(Hn & _)]]]]];
        try reflexivity.
      - simpl. now destruct (Z.eqb_spec (driver_backends_is_supported name) 0).
      - destruct Hd as [(Hin & _)|[(Hin & _)|(Hq & _)]].
        + exfalso. apply Hn. simpl in *. tauto.
        + simpl in Hin.
          destruct Hin as [Hc|[Hc|[Hc|[Hc|[Hc|[]]]]]]; rewrite <- Hc in *;
            solve [ discriminate E | exfalso; apply Hn; simpl; tauto ].
        + rewrite Hq in E. discriminate E. }
    split; [simpl; now rewrite Hpd|].
    destruct (passing_flag argv0 d w Hd Hpd) as (w2 & E2 & T2).
    rewrite E in E2. inversion E2; subst. congruence.
Qed.

Ltac case_last :=
  repeat match goal with
         | |- context [last_arg ?c ?l] => destruct (last_arg c l)
         end;
  rewrite ?orb_true_r; reflexivity.

(** The settings and the backend pointer after a run of flags that all
    returned: the last -b, -W and -H decide, -f and -m accumulate. *)
Lemma run_flags_final ds :
  forall w w',
    run_flags ds w = Ret tt w' ->
    selected_backend w'
    = match last_arg "b" ds with Some a => Some a | None => selected_backend w end
    /\ window_width (settings w')
       = match last_arg "W" ds with
         | Some a => Libc.atoi a
         | None => window_width (settings w)
         end
    /\ window_height (settings w')
       = match last_arg "H" ds with
         | Some a => Libc.atoi a
         | None => window_height (settings w)
         end
    /\ fullscreen (settings w') = (fullscreen (settings w) || existsb (is_flag "f") ds)%bool
    /\ maximize (settings w') = (maximize (settings w) || existsb (is_flag "m") ds)%bool
    /\ (forall n, last_arg "b" ds = Some n -> In n backends).
Proof.
  induction ds as [|d ds IH]; intros w w' H.
  - inversion H; subst. simpl. rewrite !orb_false_r. repeat split. discriminate.
  - rewrite run_flags_cons in H.
    destruct (configure_case (d_opt d) (emit (d_err d) (with_gopt (d_state d) w)))
      as [[] w1| | |] eqn:E; try discriminate.
    destruct (IH _ _ H) as (Hb & Hw & Hh & Hf & Hm & Hs). clear IH H.
    apply configure_case_Ret in E. simpl in E. fold (d_arg d) in E.
    cbn [last_arg existsb].
    rewrite Hb, Hw, Hh, Hf, Hm. clear Hb Hw Hh Hf Hm. unfold is_flag.
    destruct E as [(-> & name & Ha & Hn & ->)|[(-> & ->)|[(-> & ->)|[(-> & a & Ha & ->)
                  |[(-> & a & Ha & ->)|(Hn & ->)]]]]].
    + simpl. rewrite Ha. repeat split;
        try solve [case_last].
      intros n. destruct (last_arg "b" ds) eqn:El; [apply Hs; assumption|].
      intros K; inversion K; subst.
      apply supported_spec. unfold supported.
      now destruct (Z.eqb_spec (driver_backends_is_supported n) 0).
    + simpl. repeat split; try solve [case_last].
      intros n. destruct (last_arg "b" ds); [apply Hs | discriminate].
    + simpl. repeat split; try solve [case_last].
      intros n. destruct (last_arg "b" ds); [apply Hs | discriminate].
    + simpl. rewrite Ha. repeat split; try solve [case_last].
      intros n. destruct (last_arg "b" ds); [apply Hs | discriminate].
    + simpl. rewrite Ha. repeat split; try solve [case_last].
      intros n. destruct (last_arg "b" ds); [apply Hs | discriminate].
    + assert (Hne : forall x, In x ["b"; "f"; "m"; "W"; "H"]%char ->
                              Ascii.eqb (d_opt d) x = false).
      { intros x Hx. apply Ascii.eqb_neq. intros Heq. rewrite <- Heq in Hx. now apply Hn. }
      rewrite !Hne by (simpl; tauto). simpl.
      repeat split; try solve [case_last].
      intros n. destruct (last_arg "b" ds); [apply Hs | discriminate].
Qed.

(** ** Totality

    The option loop never runs out of its budget and never hands a [NULL]
    argument to the C library: [configure_simulator] returns or exits. *)

Lemma stopping_flag argv0 d w :
  delivered_ok argv0 d -> stops d = true ->
  exists st w',
    configure_case (d_opt d) (emit (d_err d) (with_gopt (d_state d) w)) = Exit st w'.
Proof.
  intros Hok Hs. unfold stops in Hs.
  destruct d as [c g evs]. unfold delivered_ok, d_arg in *. simpl in *.
  destruct Hok as [(Hin & (a & Ha) & _) | [(Hin & _ & _) | (-> & _)]].
  - rewrite Ha in Hs.
    destruct Hin as [<-|[<-|[<-|[]]]]; simpl in Hs; try discriminate.
    unfold supported in Hs. rewrite negb_involutive in Hs.
    unfold configure_case, bind, read_optarg. simpl. rewrite Ha, Hs.
    eexists; eexists; reflexivity.
  - destruct Hin as [<-|[<-|[<-|[<-|[<-|[]]]]]]; simpl in Hs; try discriminate;
      unfold configure_case; simpl;
      try rewrite (bind_Ret _ _ _ _ _ (print_usage_run _));
      eexists; eexists; reflexivity.
  - unfold configure_case. simpl.
    rewrite (bind_Ret _ _ _ _ _ (print_usage_run _)).
    eexists; eexists; reflexivity.
Qed.

Lemma run_flags_total argv0 ds :
  forall w,
    Forall (delivered_ok argv0) ds ->
    (exists w', run_flags ds w = Ret tt w') \/ (exists st w', run_flags ds w = Exit st w').
Proof.
  induction ds as [|d ds IH]; intros w Hok.
  - left. now exists w.
  - inversion Hok as [|? ? Hd Hds]; subst. rewrite run_flags_cons.
    destruct (stops d) eqn:Es.
    + right. destruct (stopping_flag argv0 d w Hd Es) as (st & w' & ->). eauto.
    + assert (Hp : passes d = true) by (unfold passes; now rewrite Es).
      destruct (passing_flag argv0 d w Hd Hp) as (w1 & -> & _). now apply IH.
Qed.

Lemma configure_simulator_total env argv s0 :
  (exists w, configure_simulator env argv (process_start s0 argv) = Ret tt w)
  \/ (exists st w, configure_simulator env argv (process_start s0 argv) = Exit st w).
Proof.
  rewrite configure_simulator_flags.
  destruct (run_flags_total _ _ (defaults_world env s0 argv) (flags_ok env argv))
    as [(w' & ->)|(st & w' & ->)]; eauto.
Qed.

(** [main] of the standard build ends in a return or an exit. *)
Lemma main_total env argv s0 :
  (exists v w, main env argv (process_start s0 argv) = Ret v w)
  \/ (exists st w, main env argv (process_start s0 argv) = Exit st w).
Proof.
  destruct (configure_simulator_total env argv s0) as [(w & E)|(st & w & E)].
  - rewrite main_split. unfold bind. rewrite E.
    unfold main_after_configure, bind, lv_init, init_backend, die, fprintf, call, modify,
      lv_demo_widgets, lv_demo_widgets_start_slideshow, driver_backends_run_loop, exit, ret.
    simpl.
    destruct (driver_backends_init_backend (selected_backend w) (settings w) =? -1);
      simpl; [right; eauto|].
    destruct LV_USE_EVDEV; simpl; [|left; eauto].
    destruct (driver_backends_init_backend (Some "EVDEV") (settings w) =? -1);
      simpl; [right|left]; eauto.
  - right. rewrite main_split. unfold bind. rewrite E. eauto.
Qed.

(** ** The early-exit flags *)

(** C3 (amended).  When -h, -V or -B is reached by the option scan, that
    is, when every flag before it on the command line is one that lets the
    process go on (-f, -m, -W, -H, or -b with a supported name), the
    process prints the requested output (usage, LVGL version or the list of
    backends) and exits with status 0; apart from filling the registry it
    has done nothing else: the toolkit and the backend were not
    initialised, the demo and the run loop were not started. *)
Theorem early_exit_flags env argv s0 pre d post :
  flags env argv = (pre ++ d :: post)%list ->
  forallb passes pre = true ->
  In (d_opt d) ["h"; "V"; "B"]%char ->
  exists w',
    main env argv (process_start s0 argv) = Exit 0 w'
    /\ trace w' = (EvRegister :: requested_output (d_opt d))%list
    /\ existsb starts_something (trace w') = false.
Proof.
  intros Hf Hp Hin.
  destruct (main_reaches env argv s0 pre d post Hf Hp) as (w1 & E1 & T1 & Hmain).
  assert (Herr : d_err d = []).
  { pose proof (flags_ok env argv) as Hok. rewrite Hf in Hok.
    apply Forall_app in Hok as [_ Hok]. inversion Hok as [|? ? Hd _]; subst.
    destruct Hd as [(_ & _ & H)|[(_ & _ & H)|(Hq & _)]]; auto.
    rewrite Hq in Hin. simpl in Hin.
    repeat destruct Hin as [Hin|Hin]; try discriminate Hin; contradiction. }
  rewrite Herr in Hmain.
  set (w2 := emit [] (with_gopt (d_state d) w1)) in *.
  assert (T2 : trace w2 = [EvRegister]).
  { unfold w2. simpl. now rewrite app_nil_r. }
  clearbody w2.
  destruct Hin as [Hc|[Hc|[Hc|[]]]]; rewrite <- Hc in *.
  - exists (emit usage_events w2). split; [|split].
    + apply Hmain. unfold configure_case. simpl.
      now rewrite (bind_Ret _ _ _ _ _ (print_usage_run w2)).
    + simpl. now rewrite T2.
    + simpl. now rewrite T2.
  - eexists. split; [|split].
    + apply Hmain. reflexivity.
    + simpl. now rewrite T2.
    + simpl. now rewrite T2.
  - eexists. split; [|split].
    + apply Hmain. reflexivity.
    + simpl. now rewrite T2.
    + simpl. now rewrite T2.
Qed.

(** ** Fatal flags *)

(** C4 (amended).  When the option scan reaches a flag that [getopt]
    rejects, because the flag is unknown or because it needs an argument
    and the command line ends there, and every flag before it is one that
    lets the process go on, then the process prints a diagnostic
    ([getopt]'s own complaint, the usage text and the launcher's message
    naming the flag) and terminates at once with a non-zero status. *)
Theorem rejected_flag_is_fatal env argv s0 pre d post :
  flags env argv = (pre ++ d :: post)%list ->
  forallb passes pre = true ->
  d_opt d = "?"%char ->
  die_status <> 0 ->
  let c := optopt (d_state d) in
  exists st w',
    main env argv (process_start s0 argv) = Exit st w'
    /\ st <> 0
    /\ ((~ In c known_flags /\ d_err d = [invalid_option (hd "" argv) c])
        \/ (In c ["b"; "W"; "H"]%char /\ d_err d = [requires_argument (hd "" argv) c]))
    /\ trace w'
       = (EvRegister :: d_err d ++ usage_events
          ++ [EvPrintf Stderr ("Unknown option -%c." ++ LF) [ArgChar c]])%list
    /\ existsb starts_something (trace w') = false.
Proof.
  intros Hf Hp Hq Hdie c.
  destruct (main_reaches env argv s0 pre d post Hf Hp) as (w1 & E1 & T1 & Hmain).
  assert (Hd : delivered_ok (hd "" argv) d).
  { pose proof (flags_ok env argv) as Hok. rewrite Hf in Hok.
    apply Forall_app in Hok as [_ Hok]. now inversion Hok. }
  assert (Herr : (~ In c known_flags /\ d_err d = [invalid_option (hd "" argv) c])
                 \/ (In c ["b"; "W"; "H"]%char
                     /\ d_err d = [requires_argument (hd "" argv) c])).
  { destruct Hd as [(Hin & _)|[(Hin & _)|(_ & _ & H)]]; [| |exact H];
      rewrite Hq in Hin; simpl in Hin;
      repeat destruct Hin as [Hin|Hin]; try discriminate Hin; contradiction. }
  set (w2 := emit (d_err d) (with_gopt (d_state d) w1)) in *.
  assert (T2 : trace w2 = (EvRegister :: d_err d)%list).
  { unfold w2. simpl. now rewrite T1. }
  assert (G2 : optopt (gopt w2) = c) by reflexivity.
  clearbody w2.
  exists die_status,
    (emit [EvPrintf Stderr ("Unknown option -%c." ++ LF) [ArgChar c]] (emit usage_events w2)).
  split; [|split; [assumption|split; [assumption|split]]].
  - apply Hmain. rewrite Hq. unfold configure_case. simpl.
    rewrite (bind_Ret _ _ _ _ _ (print_usage_run w2)).
    unfold bind, read_optopt, die, fprintf, call, modify, exit. simpl.
    now rewrite G2.
  - simpl. rewrite T2. simpl. now rewrite <- app_assoc.
  - simpl. rewrite T2. simpl. rewrite !existsb_app. simpl.
    destruct Herr as [(_ & ->)|(_ & ->)]; reflexivity.
Qed.

(** C5 (amended).  When the option scan reaches -b with a name that is not
    in the backend registry, and every flag before it is one that lets the
    process go on, the process prints a diagnostic naming the backend and
    terminates with a non-zero status, having printed nothing else; the
    selected-backend pointer and the settings are what they were when the
    flag was taken up, so the pointer does not hold the rejected name. *)
Theorem unknown_backend_is_fatal env argv s0 pre d post name :
  flags env argv = (pre ++ d :: post)%list ->
  forallb passes pre = true ->
  d_opt d = "b"%char ->
  d_arg d = Some name ->
  ~ In name backends ->
  die_status <> 0 ->
  exists st w1 w',
    run_flags pre (defaults_world env s0 argv) = Ret tt w1
    /\ main env argv (process_start s0 argv) = Exit st w'
    /\ st <> 0
    /\ trace w'
       = [EvRegister; EvPrintf Stderr ("error no such backend: %s" ++ LF) [ArgStr name]]
    /\ selected_backend w' = selected_backend w1
    /\ settings w' = settings w1
    /\ selected_backend w' <> Some name.
Proof.
  intros Hf Hp Hb Ha Hnot Hdie.
  destruct (main_reaches env argv s0 pre d post Hf Hp) as (w1 & E1 & T1 & Hmain).
  assert (Herr : d_err d = []).
  { pose proof (flags_ok env argv) as Hok. rewrite Hf in Hok.
    apply Forall_app in Hok as [_ Hok]. inversion Hok as [|? ? Hd _]; subst.
    destruct Hd as [(_ & _ & H)|[(_ & _ & H)|(Hq & _)]]; auto.
    rewrite Hq in Hb. discriminate Hb. }
  apply is_supported_spec in Hnot.
  exists die_status, w1,
    (emit [EvPrintf Stderr ("error no such backend: %s" ++ LF) [ArgStr name]]
       (emit (d_err d) (with_gopt (d_state d) w1))).
  split; [assumption|]. split; [|split; [assumption|]].
  - apply Hmain. rewrite Hb. unfold configure_case, bind, read_optarg. simpl.
    fold (d_arg d). rewrite Ha, Hnot. reflexivity.
  - simpl. rewrite Herr, T1. repeat split.
    destruct (run_flags_final pre _ _ E1) as (Hsb & _ & _ & _ & _ & Hs).
    rewrite Hsb. simpl. intros K.
    destruct (last_arg "b" pre) as [n|]; [|discriminate].
    inversion K; subst. specialize (Hs name eq_refl).
    apply is_supported_spec in Hnot. contradiction.
Qed.

(** ** Defaults and flags that set a field *)

Lemma last_arg_none c ds :
  existsb (is_flag c) ds = false -> last_arg c ds = None.
Proof.
  induction ds as [|d ds IH]; simpl; [reflexivity|].
  intros H. apply orb_false_iff in H as [Hd Hds].
  now rewrite (IH Hds), Hd.
Qed.

Lemma configure_simulator_Ret env argv s0 w :
  configure_simulator env argv (process_start s0 argv) = Ret tt w ->
  exists w',
    run_flags (flags env argv) (defaults_world env s0 argv) = Ret tt w'
    /\ settings w = settings w'
    /\ selected_backend w = selected_backend w'
    /\ trace w = [EvRegister].
Proof.
  rewrite configure_simulator_flags.
  destruct (run_flags (flags env argv) (defaults_world env s0 argv))
    as [[] w'| | |] eqn:E; try discriminate.
  intros H; inversion H; subst. exists w'. repeat split.
  simpl. now destruct (run_flags_Ret _ _ _ _ (flags_ok env argv) E) as [_ ->].
Qed.

(** C1 (amended).  When [configure_simulator] returns and the command line
    holds no -W flag, the window width is 800 if LV_SIM_WINDOW_WIDTH is
    absent from the environment and the [atoi] value of that variable if it
    is present; likewise for the height with -H, LV_SIM_WINDOW_HEIGHT and
    480. *)
Theorem window_size_defaults env argv s0 w :
  configure_simulator env argv (process_start s0 argv) = Ret tt w ->
  (existsb (is_flag "W") (flags env argv) = false ->
   (getenv env "LV_SIM_WINDOW_WIDTH" = None -> window_width (settings w) = 800)
   /\ (forall s, getenv env "LV_SIM_WINDOW_WIDTH" = Some s ->
                 window_width (settings w) = Libc.atoi s))
  /\ (existsb (is_flag "H") (flags env argv) = false ->
      (getenv env "LV_SIM_WINDOW_HEIGHT" = None -> window_height (settings w) = 480)
      /\ (forall s, getenv env "LV_SIM_WINDOW_HEIGHT" = Some s ->
                    window_height (settings w) = Libc.atoi s)).
Proof.
  intros H. apply configure_simulator_Ret in H as (w' & E & -> & _ & _).
  destruct (run_flags_final _ _ _ E) as (_ & Hw & Hh & _).
  split; intros Hno; apply last_arg_none in Hno.
  - rewrite Hw, Hno. simpl. split; [intros -> | intros s ->]; reflexivity.
  - rewrite Hh, Hno. simpl. split; [intros -> | intros s ->]; reflexivity.
Qed.

(** C2 (amended).  For every command line and every flag the scan finds on
    it, the case of the flag changes exactly its own field of the process
    state it is taken up in: -f sets [fullscreen], -m sets [maximize], -W
    and -H store the [atoi] value of their argument as width and height,
    and -b records its argument as the selected backend provided the name
    is in the backend registry. *)
Theorem flag_sets_its_field env argv d w :
  In d (flags env argv) ->
  gopt w = d_state d ->
  (d_opt d = "f"%char ->
   configure_case "f" w = Ret tt (with_settings (set_fullscreen true) w))
  /\ (d_opt d = "m"%char ->
      configure_case "m" w = Ret tt (with_settings (set_maximize true) w))
  /\ (d_opt d = "W"%char ->
      exists a, d_arg d = Some a
                /\ configure_case "W" w
                   = Ret tt (with_settings (set_window_width (Libc.atoi a)) w))
  /\ (d_opt d = "H"%char ->
      exists a, d_arg d = Some a
                /\ configure_case "H" w
                   = Ret tt (with_settings (set_window_height (Libc.atoi a)) w))
  /\ (d_opt d = "b"%char ->
      exists name, d_arg d = Some name
                   /\ (In name backends ->
                       configure_case "b" w = Ret tt (with_backend (Some name) w))).
Proof.
  intros Hin Hg.
  assert (Harg : In (d_opt d) ["b"; "W"; "H"]%char -> exists a, d_arg d = Some a).
  { pose proof (flags_ok env argv) as Hok.
    rewrite Forall_forall in Hok. specialize (Hok d Hin).
    intros Hc. destruct Hok as [(_ & Ha & _)|[(Hp & _)|(Hq & _)]]; [assumption| |].
    - exfalso. simpl in Hc, Hp.
      destruct Hc as [Hc|[Hc|[Hc|[]]]]; rewrite <- Hc in Hp;
        repeat destruct Hp as [Hp|Hp]; try discriminate Hp; contradiction.
    - exfalso. rewrite Hq in Hc. simpl in Hc.
      repeat destruct Hc as [Hc|Hc]; try discriminate Hc; contradiction. }
  unfold d_arg in *. rewrite <- Hg in *.
  split; [reflexivity|]. split; [reflexivity|].
  split; [|split]; intros Hc; rewrite Hc in Harg;
    destruct Harg as [a Ha]; try (simpl; tauto); exists a; (split; [assumption|]).
  - unfold configure_case, bind, read_optarg. simpl. now rewrite Ha.
  - unfold configure_case, bind, read_optarg. simpl. now rewrite Ha.
  - intros Hs. apply supported_spec in Hs. unfold supported in Hs.
    unfold configure_case, bind, read_optarg. simpl. rewrite Ha.
    destruct (driver_backends_is_supported a =? 0); [discriminate|]. reflexivity.
Qed.

(** ** After configuration *)

Lemma emit_emit l1 l2 w : emit l2 (emit l1 w) = emit (l1 ++ l2) w.
Proof. destruct w. unfold emit. simpl. now rewrite app_assoc. Qed.

(** The steps of [main] after [configure_simulator], spelled out. *)
Lemma main_after_configure_run w :
  main_after_configure w
  = let name := selected_backend w in
    if driver_backends_init_backend name (settings w) =? -1
    then Exit die_status (emit (init_failure_events name) w)
    else if LV_USE_EVDEV
         then if driver_backends_init_backend (Some "EVDEV") (settings w) =? -1
              then Exit die_status
                     (emit [EvLvInit; EvInitBackend name; EvInitBackend (Some "EVDEV");
                            EvPrintf Stderr "Failed to initialize evdev" []] w)
              else Ret 0
                     (emit [EvLvInit; EvInitBackend name; EvInitBackend (Some "EVDEV");
                            EvDemoWidgets; EvSlideshow; EvRunLoop] w)
         else Ret 0 (emit [EvLvInit; EvInitBackend name;
                           EvDemoWidgets; EvSlideshow; EvRunLoop] w).
Proof.
  unfold main_after_configure, bind, lv_init, init_backend, die, fprintf, call, modify,
    lv_demo_widgets, lv_demo_widgets_start_slideshow, driver_backends_run_loop, exit, ret.
  simpl.
  destruct (driver_backends_init_backend (selected_backend w) (settings w) =? -1);
    simpl; [now rewrite !emit_emit|].
  destruct LV_USE_EVDEV; simpl; [|now rewrite !emit_emit].
  destruct (driver_backends_init_backend (Some "EVDEV") (settings w) =? -1);
    simpl; now rewrite !emit_emit.
Qed.

Lemma main_after_Ret env argv w0 w1 :
  configure_simulator env argv w0 = Ret tt w1 ->
  main env argv w0 = main_after_configure w1.
Proof. intros H. rewrite main_split. unfold bind. now rewrite H. Qed.

(** C6.  Whenever [configure_simulator] has returned and the
    initialisation of the selected backend reports -1, the process prints
    "Failed to initialize display backend" and terminates through [die].
    The dispatcher was called exactly once, with the selected backend;
    neither the demo nor the run loop was started. *)
Theorem backend_init_failure_is_fatal env argv s0 w1 :
  configure_simulator env argv (process_start s0 argv) = Ret tt w1 ->
  driver_backends_init_backend (selected_backend w1) (settings w1) = -1 ->
  exists w',
    main env argv (process_start s0 argv) = Exit die_status w'
    /\ trace w' = (EvRegister :: init_failure_events (selected_backend w1))%list
    /\ filter is_init_backend (trace w') = [EvInitBackend (selected_backend w1)]
    /\ existsb starts_demo_or_loop (trace w') = false.
Proof.
  intros Hc Hfail.
  rewrite (main_after_Ret _ _ _ _ Hc), main_after_configure_run. simpl.
  rewrite Hfail. simpl.
  apply configure_simulator_Ret in Hc as (_ & _ & _ & _ & T).
  eexists. split; [reflexivity|]. simpl. rewrite T. repeat split.
Qed.

(** C7.  The settings are written by [configure_simulator] only: whatever
    state the rest of [main] starts from, and however it ends (return or
    [die]), the settings record and the selected-backend pointer at the end
    are those at the start; so once [configure_simulator] has returned,
    [main] ends with the settings that [configure_simulator] left. *)
Theorem settings_fixed_after_configure env argv s0 w1 :
  configure_simulator env argv (process_start s0 argv) = Ret tt w1 ->
  settings (world_of (main env argv (process_start s0 argv))) = settings w1
  /\ forall w, settings (world_of (main_after_configure w)) = settings w
               /\ selected_backend (world_of (main_after_configure w)) = selected_backend w.
Proof.
  assert (Hframe : forall w, settings (world_of (main_after_configure w)) = settings w
                             /\ selected_backend (world_of (main_after_configure w))
                                = selected_backend w).
  { intros w. rewrite main_after_configure_run. simpl.
    destruct (driver_backends_init_backend (selected_backend w) (settings w) =? -1);
      [split; reflexivity|].
    destruct LV_USE_EVDEV; [|split; reflexivity].
    destruct (driver_backends_init_backend (Some "EVDEV") (settings w) =? -1);
      split; reflexivity. }
  intros Hc. split; [|exact Hframe].
  rewrite (main_after_Ret _ _ _ _ Hc). apply Hframe.
Qed.

Lemma last_arg_In c ds a :
  last_arg c ds = Some a ->
  exists d, In d ds /\ d_opt d = c /\ d_arg d = Some a.
Proof.
  induction ds as [|d ds IH]; simpl; [discriminate|].
  destruct (last_arg c ds) as [a'|].
  - intros H. destruct (IH H) as (d' & Hin & Hd). exists d'. auto.
  - unfold is_flag. destruct (Ascii.eqb_spec (d_opt d) c); [|discriminate].
    intros H. exists d. auto.
Qed.

Lemma last_arg_some c ds d a :
  In d ds -> d_opt d = c -> d_arg d = Some a -> last_arg c ds <> None.
Proof.
  induction ds as [|d' ds IH]; simpl; [tauto|].
  intros [->|Hin] Hc Ha.
  - destruct (last_arg c ds); [discriminate|].
    unfold is_flag. rewrite Hc, Ascii.eqb_refl, Ha. discriminate.
  - specialize (IH Hin Hc Ha). destruct (last_arg c ds); [discriminate|contradiction].
Qed.

(** C8.  After [configure_simulator] has returned, the selected-backend
    pointer holds the argument of the last -b flag of the command line, and
    is [NULL] if there is none; it is non-[NULL] exactly when the command
    line holds a -b flag with a registered name.  Without a -b flag, [main]
    calls the dispatcher with [NULL], for which the dispatcher takes its
    default backend. *)
Theorem selected_backend_after_configure env argv s0 w :
  configure_simulator env argv (process_start s0 argv) = Ret tt w ->
  selected_backend w = last_arg "b" (flags env argv)
  /\ (selected_backend w <> None
      <-> exists d name, In d (flags env argv) /\ d_opt d = "b"%char
                         /\ d_arg d = Some name /\ In name backends)
  /\ (existsb (is_flag "b") (flags env argv) = false ->
      selected_backend w = None
      /\ (exists t, trace (world_of (main env argv (process_start s0 argv)))
                    = ([EvRegister; EvLvInit; EvInitBackend None] ++ t)%list)
      /\ dispatcher_choice (selected_backend w) = Some default_backend).
Proof.
  intros Hc. pose proof (main_after_Ret _ _ _ _ Hc) as Hmain.
  apply configure_simulator_Ret in Hc as (w' & E & _ & Hsb & T).
  destruct (run_flags_final _ _ _ E) as (Hb & _ & _ & _ & _ & Hs).
  assert (Hlast : selected_backend w = last_arg "b" (flags env argv)).
  { rewrite Hsb, Hb. simpl. now destruct (last_arg "b" (flags env argv)). }
  split; [assumption|]. split; [split|].
  - intros Hne. destruct (selected_backend w) as [n|] eqn:En; [|contradiction].
    symmetry in Hlast. destruct (last_arg_In _ _ _ Hlast) as (d & Hin & Hd & Ha).
    exists d, n. auto.
  - intros (d & name & Hin & Hd & Ha & _). rewrite Hlast.
    eapply last_arg_some; eauto.
  - intros Hno. apply last_arg_none in Hno. rewrite Hno in Hlast.
    split; [assumption|]. split; [|now rewrite Hlast].
    rewrite Hmain, main_after_configure_run, Hlast. simpl.
    destruct (driver_backends_init_backend None (settings w) =? -1);
      [|destruct LV_USE_EVDEV;
        [destruct (driver_backends_init_backend (Some "EVDEV") (settings w) =? -1)|]];
      simpl; rewrite T; eexists; reflexivity.
Qed.

(** ** The alternate build *)

Lemma spin_forever fuel :
  forall w, while_some fuel (ret (if 1 =? 0 then None else Some tt)) (fun _ => ret tt) w
            = Fuel w.
Proof. induction fuel as [|n IH]; intros w; [reflexivity|]. simpl. apply IH. Qed.

(** C10.  The alternate [main] does the same whatever its arguments and
    environment; it passes the fixed name "FBDEV" to the dispatcher; and it
    never returns: if the backend fails to initialise the process dies, and
    otherwise, once the run loop has returned, the closing [while (1)] is
    still running after any number of rounds. *)
Theorem main_alt_never_returns fuel env argv env' argv' w :
  main_alt fuel env argv w = main_alt fuel env' argv' w
  /\ (forall v w', main_alt fuel env argv w <> Ret v w')
  /\ main_alt fuel env argv w
     = if driver_backends_init_backend (Some "FBDEV") (settings w) =? -1
       then Exit die_status
              (emit (EvRegister :: init_failure_events (Some "FBDEV"))
                 (with_backend (Some "FBDEV") w))
       else Fuel (emit [EvRegister; EvLvInit; EvInitBackend (Some "FBDEV");
                        EvDrawCharExample; EvRunLoop]
                    (with_backend (Some "FBDEV") w)).
Proof.
  assert (Hrun : main_alt fuel env argv w
     = if driver_backends_init_backend (Some "FBDEV") (settings w) =? -1
       then Exit die_status
              (emit (EvRegister :: init_failure_events (Some "FBDEV"))
                 (with_backend (Some "FBDEV") w))
       else Fuel (emit [EvRegister; EvLvInit; EvInitBackend (Some "FBDEV");
                        EvDrawCharExample; EvRunLoop]
                    (with_backend (Some "FBDEV") w))).
  { unfold main_alt, bind, driver_backends_register, lv_init, init_backend, die, fprintf,
      call, modify, draw_char_example, driver_backends_run_loop, exit.
    simpl.
    destruct (driver_backends_init_backend (Some "FBDEV") (settings w) =? -1); simpl.
    - destruct w. unfold emit, with_backend. simpl.
      now rewrite <- !app_assoc.
    - rewrite spin_forever.
      destruct w. unfold emit, with_backend. simpl.
      now rewrite <- !app_assoc. }
  split; [reflexivity|]. split; [|exact Hrun].
  intros v w'. rewrite Hrun.
  destruct (driver_backends_init_backend (Some "FBDEV") (settings w) =? -1); discriminate.
Qed.

(** ** What [atoi] makes of an argument *)

Lemma to_int_small v : Libc.INT_MIN <= v <= Libc.INT_MAX -> Libc.to_int v = v.
Proof.
  unfold Libc.to_int, Libc.INT_MIN, Libc.INT_MAX. intros H.
  rewrite Z.mod_small; lia.
Qed.

Lemma clamp_small v : Libc.INT_MIN <= v <= Libc.INT_MAX -> Libc.clamp_long v = v.
Proof.
  unfold Libc.clamp_long, Libc.INT_MIN, Libc.INT_MAX, Libc.LONG_MIN, Libc.LONG_MAX.
  intros H.
  destruct (Z.ltb_spec v (- 2 ^ 63)); [lia|].
  destruct (Z.ltb_spec (2 ^ 63 - 1) v); [lia|]. reflexivity.
Qed.

Lemma atoi_no_number s : starts_with_number s = false -> Libc.atoi s = 0.
Proof.
  unfold starts_with_number, Libc.atoi, Libc.strtol, is_digit.
  destruct (Libc.skip_space s) as [|c s']; [reflexivity|].
  destruct (Ascii.eqb c "-"); simpl.
  - destruct s' as [|c' s'']; [reflexivity|]. simpl.
    destruct (Libc.digit_val c'); [discriminate|reflexivity].
  - destruct (Ascii.eqb c "+"); simpl.
    + destruct s' as [|c' s'']; [reflexivity|]. simpl.
      destruct (Libc.digit_val c'); [discriminate|reflexivity].
    + destruct (Libc.digit_val c); [discriminate|reflexivity].
Qed.

Lemma digits_of_uint_acc d :
  forall acc, Libc.digits (Z.pos acc) (NilEmpty.string_of_uint d) = Z.pos (Pos.of_uint_acc d acc).
Proof.
  induction d; intros acc; [reflexivity| ..];
    cbn [NilEmpty.string_of_uint Libc.digits Pos.of_uint_acc];
    match goal with
    | |- context [Libc.digit_val ?c] =>
        let v := eval vm_compute in (Libc.digit_val c) in
        change (Libc.digit_val c) with v
    end;
    cbv iota beta; rewrite <- IHd; f_equal; lia.
Qed.

Lemma digits_of_uint d :
  Libc.digits 0 (NilEmpty.string_of_uint d) = Z.of_N (Pos.of_uint d).
Proof.
  induction d; [reflexivity| ..];
    cbn [NilEmpty.string_of_uint Libc.digits Pos.of_uint];
    match goal with
    | |- context [Libc.digit_val ?c] =>
        let v := eval vm_compute in (Libc.digit_val c) in
        change (Libc.digit_val c) with v
    end;
    cbv iota beta; [exact IHd | ..]; apply (digits_of_uint_acc d).
Qed.

Lemma digits_to_uint p :
  Libc.digits 0 (NilEmpty.string_of_uint (Pos.to_uint p)) = Z.pos p.
Proof. now rewrite digits_of_uint, DecimalPos.Unsigned.of_to. Qed.

Lemma skip_space_digit c s :
  is_digit c = true -> Libc.skip_space (String c s) = String c s.
Proof.
  destruct c as [[] [] [] [] [] [] [] []]; intros H; try discriminate H; reflexivity.
Qed.

Lemma string_of_uint_head d :
  d <> Decimal.Nil ->
  exists c s, NilEmpty.string_of_uint d = String c s /\ is_digit c = true
              /\ Ascii.eqb c "-" = false /\ Ascii.eqb c "+" = false.
Proof.
  destruct d; [congruence| ..]; intros _; simpl; eexists; eexists; repeat split.
Qed.

Lemma atoi_decimal z :
  Libc.INT_MIN <= z <= Libc.INT_MAX -> Libc.atoi (decimal z) = z.
Proof.
  intros Hz. unfold decimal, Libc.atoi, Libc.strtol.
  destruct z as [|p|p]; [reflexivity| |]; simpl Z.to_int; unfold NilZero.string_of_int.
  - unfold NilZero.string_of_uint.
    pose proof (DecimalPos.Unsigned.to_uint_nonnil p) as Hn.
    pose proof (digits_to_uint p) as Hd.
    destruct (string_of_uint_head _ Hn) as (c & s & E & Hc & Hm & Hp).
    destruct (Pos.to_uint p) eqn:Eu; [congruence| ..];
      rewrite E in *;
      rewrite (skip_space_digit _ _ Hc), Hm, Hp, Hd, clamp_small, to_int_small; auto.
  - unfold NilZero.string_of_uint.
    pose proof (DecimalPos.Unsigned.to_uint_nonnil p) as Hn.
    pose proof (digits_to_uint p) as Hd.
    assert (E : match Pos.to_uint p with
                | Decimal.Nil => "0"
                | _ => NilEmpty.string_of_uint (Pos.to_uint p)
                end = NilEmpty.string_of_uint (Pos.to_uint p)).
    { destruct (Pos.to_uint p); congruence. }
    rewrite E. simpl. rewrite Hd.
    change (- Z.pos p) with (Z.neg p).
    rewrite clamp_small, to_int_small; auto.
Qed.

Lemma digits_stop acc rest : no_leading_digit rest = true -> Libc.digits acc rest = acc.
Proof.
  destruct rest as [|c rest]; [reflexivity|]. unfold no_leading_digit, is_digit. simpl.
  now destruct (Libc.digit_val c).
Qed.

Lemma digits_of_uint_acc_app d rest :
  no_leading_digit rest = true ->
  forall acc, Libc.digits (Z.pos acc) (NilEmpty.string_of_uint d ++ rest)
              = Z.pos (Pos.of_uint_acc d acc).
Proof.
  intros Hr.
  induction d; intros acc; [now apply digits_stop| ..];
    cbn [NilEmpty.string_of_uint Libc.digits Pos.of_uint_acc String.append];
    match goal with
    | |- context [Libc.digit_val ?c] =>
        let v := eval vm_compute in (Libc.digit_val c) in
        change (Libc.digit_val c) with v
    end;
    cbv iota beta; rewrite <- IHd; f_equal; lia.
Qed.

Lemma digits_of_uint_app d rest :
  no_leading_digit rest = true ->
  Libc.digits 0 (NilEmpty.string_of_uint d ++ rest) = Z.of_uint d.
Proof.
  intros Hr. unfold Z.of_uint.
  induction d; [now apply digits_stop| ..];
    cbn [NilEmpty.string_of_uint Libc.digits Pos.of_uint String.append];
    match goal with
    | |- context [Libc.digit_val ?c] =>
        let v := eval vm_compute in (Libc.digit_val c) in
        change (Libc.digit_val c) with v
    end;
    cbv iota beta; [exact IHd | ..]; apply (digits_of_uint_acc_app d rest Hr).
Qed.

Lemma skip_space_app ws t :
  all_space ws = true -> Libc.skip_space (ws ++ t) = Libc.skip_space t.
Proof.
  induction ws as [|c ws IH]; simpl; [reflexivity|].
  intros H. apply andb_true_iff in H as [Hc Hws]. rewrite Hc. now apply IH.
Qed.

Lemma atoi_leading_number ws sign u rest :
  all_space ws = true -> is_sign sign = true -> u <> Decimal.Nil ->
  no_leading_digit rest = true ->
  Libc.INT_MIN <= signed_value sign u <= Libc.INT_MAX ->
  Libc.atoi (ws ++ sign ++ NilEmpty.string_of_uint u ++ rest) = signed_value sign u.
Proof.
  intros Hws Hsign Hu Hrest Hz.
  unfold Libc.atoi, Libc.strtol. rewrite skip_space_app by assumption.
  pose proof (digits_of_uint_app u rest Hrest) as Hd.
  unfold is_sign in Hsign. rewrite !orb_true_iff, !String.eqb_eq in Hsign.
  destruct Hsign as [[-> | ->] | ->]; unfold signed_value in *; simpl in Hz; simpl.
  - destruct (string_of_uint_head u Hu) as (c & s & E & Hc & Hm & Hp).
    rewrite E in *.
    change (String c s ++ rest) with (String c (s ++ rest)) in *.
    rewrite (skip_space_digit _ _ Hc), Hm, Hp.
    change (Libc.to_int (Libc.clamp_long (Libc.digits 0 (String c (s ++ rest))))
            = Z.of_uint u).
    rewrite Hd, clamp_small, to_int_small; auto.
  - rewrite Hd, clamp_small, to_int_small; auto.
  - rewrite Hd, clamp_small, to_int_small; auto.
Qed.

(** C9 (amended).  For every command line and every -W or -H flag the scan
    finds on it, the flag has an argument, [getopt] prints nothing, and the
    case stores the [atoi] value of the argument in the width (height) and
    lets the loop go on, printing nothing and checking nothing.  That value
    is 0 when the argument does not begin (after white space and an
    optional sign) with a decimal digit; it is the negative number itself
    when the argument is the decimal text of a negative [int]; and when the
    argument begins (after white space and an optional sign) with a run of
    decimal digits and goes on with other text, or ends there, it is the
    number that the sign and the digits denote, provided that number is an
    [int]. *)
Theorem window_size_arguments_unchecked env argv d w :
  In d (flags env argv) ->
  gopt w = d_state d ->
  d_opt d = "W"%char \/ d_opt d = "H"%char ->
  exists a,
    d_arg d = Some a
    /\ d_err d = []
    /\ configure_case (d_opt d) w
       = Ret tt (with_settings
                   (if Ascii.eqb (d_opt d) "W"
                    then set_window_width (Libc.atoi a)
                    else set_window_height (Libc.atoi a)) w)
    /\ (starts_with_number a = false -> Libc.atoi a = 0)
    /\ (forall z, Libc.INT_MIN <= z < 0 -> a = decimal z -> Libc.atoi a = z)
    /\ (forall ws sign u rest,
          all_space ws = true -> is_sign sign = true -> u <> Decimal.Nil ->
          no_leading_digit rest = true ->
          Libc.INT_MIN <= signed_value sign u <= Libc.INT_MAX ->
          a = ws ++ sign ++ NilEmpty.string_of_uint u ++ rest ->
          Libc.atoi a = signed_value sign u).
Proof.
  intros Hin Hg Hc.
  pose proof (flags_ok env argv) as Hok.
  rewrite Forall_forall in Hok. specialize (Hok d Hin).
  destruct Hok as [(_ & (a & Ha) & He)|[(Hp & _)|(Hq & _)]].
  - exists a. split; [assumption|]. split; [assumption|]. split; [|split; [|split]].
    + unfold d_arg in Ha. rewrite <- Hg in Ha.
      destruct Hc as [-> | ->];
        unfold configure_case, bind, read_optarg; simpl; now rewrite Ha.
    + apply atoi_no_number.
    + intros z Hz ->. apply atoi_decimal. unfold Libc.INT_MAX. lia.
    + intros ws sign u rest Hws Hsign Hu Hrest Hz ->.
      now apply atoi_leading_number.
  - exfalso. simpl in Hp.
    destruct Hc as [Hc|Hc]; rewrite Hc in Hp;
      repeat destruct Hp as [Hp|Hp]; try discriminate Hp; contradiction.
  - exfalso. destruct Hc as [Hc|Hc]; rewrite Hc in Hq; discriminate Hq.
Qed.

(** ** What [getopt] rejects

    An option character outside [optstring] is answered with '?', and so
    is -b, -W or -H at the very end of the command line.  The ':' case of
    the switch is never taken: [optstring] does not start with ':'. *)
Lemma getopt_rejects argv0 c l oo :
  (~ In c known_flags ->
   forall cs, Libc.short_option optstring argv0 c cs l oo
              = (Some "?"%char, mk_getopt None c cs l, [invalid_option argv0 c]))
  /\ (In c ["b"; "W"; "H"]%char ->
      Libc.short_option optstring argv0 c "" [] oo
      = (Some "?"%char, mk_getopt None c "" [], [requires_argument argv0 c])).
Proof.
  split.
  - intros Hn cs. rewrite short_option_optstring.
    rewrite known_flags_spec in Hn.
    destruct (has_argument c); [exfalso; auto|].
    destruct (plain_flag c); [exfalso; auto|]. reflexivity.
  - intros Hin. rewrite short_option_optstring.
    apply has_argument_spec in Hin. now rewrite Hin.
Qed.

Lemma colon_case_unreachable env argv :
  Forall (fun d => d_opt d <> ":"%char) (flags env argv).
Proof.
  eapply Forall_impl; [|apply flags_ok].
  intros d [(Hin & _)|[(Hin & _)|(Hq & _)]] Hc; rewrite Hc in *;
    [| |discriminate Hq];
    simpl in Hin; repeat destruct Hin as [Hin|Hin]; try discriminate Hin; contradiction.
Qed.

(** ** How runs end *)

Lemma stopping_flag_ends argv0 d w :
  delivered_ok argv0 d -> stops d = true ->
  ends_well (trace w) (configure_case (d_opt d) (emit (d_err d) (with_gopt (d_state d) w))).
Proof.
  intros Hok Hs. unfold stops in Hs.
  destruct d as [c g evs]. unfold delivered_ok, d_arg in *. simpl in *.
  destruct Hok as [(Hin & (a & Ha) & ->) | [(Hin & _ & ->) | (-> & _ & Herr)]].
  - rewrite Ha in Hs.
    destruct Hin as [<-|[<-|[<-|[]]]]; simpl in Hs; try discriminate.
    unfold supported in Hs. rewrite negb_involutive in Hs.
    unfold configure_case, bind, read_optarg. simpl. rewrite Ha, Hs. simpl.
    eexists. split; [now rewrite app_nil_r|]. split; [reflexivity|].
    right. split; [reflexivity|]. exists [], ("error no such backend: %s" ++ LF), [ArgStr a].
    reflexivity.
  - destruct Hin as [<-|[<-|[<-|[<-|[<-|[]]]]]]; simpl in Hs; try discriminate;
      unfold configure_case; simpl;
      try rewrite (bind_Ret _ _ _ _ _ (print_usage_run _)); simpl.
    + exists (requested_output "B"). rewrite app_nil_r.
      split; [reflexivity|]. split; [reflexivity|]. left. split; reflexivity.
    + exists (requested_output "V"). rewrite app_nil_r.
      split; [reflexivity|]. split; [reflexivity|]. left. split; reflexivity.
    + exists (requested_output "h"). rewrite app_nil_r, <- !app_assoc.
      split; [reflexivity|]. split; [reflexivity|]. left. split; reflexivity.
  - unfold configure_case. simpl.
    exists (evs ++ usage_events
            ++ [EvPrintf Stderr ("Unknown option -%c." ++ LF) [ArgChar (optopt g)]])%list.
    split; [now rewrite <- !app_assoc|]. split.
    + rewrite !existsb_app.
      destruct Herr as [(_ & ->)|(_ & ->)]; reflexivity.
    + right. split; [reflexivity|].
      exists (evs ++ usage_events)%list, ("Unknown option -%c." ++ LF), [ArgChar (optopt g)].
      now rewrite <- app_assoc.
Qed.

Lemma run_flags_ends argv0 ds :
  forall w, Forall (delivered_ok argv0) ds -> ends_well (trace w) (run_flags ds w).
Proof.
  induction ds as [|d ds IH]; intros w Hok; [reflexivity|].
  inversion Hok as [|? ? Hd Hds]; subst. rewrite run_flags_cons.
  destruct (stops d) eqn:Es.
  - pose proof (stopping_flag_ends argv0 d w Hd Es) as H.
    destruct (stopping_flag argv0 d w Hd Es) as (st & w' & E).
    rewrite E in *. exact H.
  - assert (Hp : passes d = true) by (unfold passes; now rewrite Es).
    destruct (passing_flag argv0 d w Hd Hp) as (w1 & -> & T1).
    rewrite <- T1. now apply IH.
Qed.

Lemma configure_simulator_ends env argv s0 :
  ends_well [EvRegister] (configure_simulator env argv (process_start s0 argv)).
Proof.
  rewrite configure_simulator_flags.
  pose proof (run_flags_ends _ _ (defaults_world env s0 argv) (flags_ok env argv)) as H.
  destruct (run_flags (flags env argv) (defaults_world env s0 argv)); exact H.
Qed.

(** X1.  However [main] of the standard build is started, it ends in one
    of three ways: it returns 0 without having printed anything; it exits
    with status 0 having written to stdout only; or it exits through [die],
    and then the last thing it did was to write a message to stderr.  It
    returns no other value and exits with no other status. *)
Theorem main_outcomes env argv s0 :
  (exists w, main env argv (process_start s0 argv) = Ret 0 w
             /\ existsb is_printf (trace w) = false)
  \/ (exists w, main env argv (process_start s0 argv) = Exit 0 w
                /\ existsb is_stderr (trace w) = false)
  \/ (exists w t fmt args,
        main env argv (process_start s0 argv) = Exit die_status w
        /\ trace w = (t ++ [EvPrintf Stderr fmt args])%list).
Proof.
  pose proof (configure_simulator_ends env argv s0) as H.
  destruct (configure_simulator env argv (process_start s0 argv))
    as [[] w1|st w1| |] eqn:E; try contradiction.
  - simpl in H. rewrite (main_after_Ret _ _ _ _ E), main_after_configure_run. simpl.
    destruct (driver_backends_init_backend (selected_backend w1) (settings w1) =? -1).
    { right. right. eexists. exists (trace w1 ++ [EvLvInit; EvInitBackend (selected_backend w1)])%list.
      do 2 eexists. split; [reflexivity|]. simpl. now rewrite <- app_assoc. }
    destruct LV_USE_EVDEV.
    + destruct (driver_backends_init_backend (Some "EVDEV") (settings w1) =? -1).
      * right. right. eexists.
        exists (trace w1 ++ [EvLvInit; EvInitBackend (selected_backend w1);
                             EvInitBackend (Some "EVDEV")])%list.
        do 2 eexists. split; [reflexivity|]. simpl. now rewrite <- app_assoc.
      * left. eexists. split; [reflexivity|]. simpl. now rewrite H.
    + left. eexists. split; [reflexivity|]. simpl. now rewrite H.
  - assert (Hm : main env argv (process_start s0 argv) = Exit st w1).
    { rewrite main_split. now apply bind_Exit. }
    rewrite Hm. destruct H as (evs & T & _ & [(-> & Hq)|(-> & pre & fmt & args & ->)]).
    + right. left. exists w1. split; [reflexivity|]. rewrite T. simpl. exact Hq.
    + right. right. exists w1, (EvRegister :: pre)%list, fmt, args.
      split; [reflexivity|]. rewrite T. reflexivity.
Qed.

(** X2.  The message "Option -%c requires an argument." of the ':' case
    of the switch is never printed, whatever the command line and the
    environment: [getopt] is given an option string without a leading ':'
    and reports a missing argument as '?', so that case is dead and a
    missing argument is answered with "Unknown option". *)
Theorem requires_argument_message_is_dead env argv s0 :
  existsb says_requires_argument (trace (world_of (main env argv (process_start s0 argv))))
  = false.
Proof.
  pose proof (configure_simulator_ends env argv s0) as H.
  destruct (configure_simulator env argv (process_start s0 argv))
    as [[] w1|st w1| |] eqn:E; try contradiction.
  - simpl in H. rewrite (main_after_Ret _ _ _ _ E), main_after_configure_run. simpl.
    destruct (driver_backends_init_backend (selected_backend w1) (settings w1) =? -1);
      [simpl; now rewrite H|].
    destruct LV_USE_EVDEV; [|simpl; now rewrite H].
    destruct (driver_backends_init_backend (Some "EVDEV") (settings w1) =? -1);
      simpl; now rewrite H.
  - assert (Hm : main env argv (process_start s0 argv) = Exit st w1).
    { rewrite main_split. now apply bind_Exit. }
    rewrite Hm. destruct H as (evs & T & Hn & _). simpl. rewrite T. simpl. exact Hn.
Qed.

(** ** More on flags that set a field *)

(** X3.  When [configure_simulator] returns, the width is the [atoi]
    value of the argument of the last -W flag of the command line, if there
    is one, whatever the environment says; likewise the height and the last
    -H flag. *)
Theorem last_size_flag_wins env argv s0 w :
  configure_simulator env argv (process_start s0 argv) = Ret tt w ->
  (forall a, last_arg "W" (flags env argv) = Some a ->
             window_width (settings w) = Libc.atoi a)
  /\ (forall a, last_arg "H" (flags env argv) = Some a ->
                window_height (settings w) = Libc.atoi a).
Proof.
  intros H. apply configure_simulator_Ret in H as (w' & E & -> & _ & _).
  destruct (run_flags_final _ _ _ E) as (_ & Hw & Hh & _).
  split; intros a Ha; [rewrite Hw | rewrite Hh]; now rewrite Ha.
Qed.

(** X4.  [configure_simulator] gives [fullscreen] and [maximize] no
    default and never clears them: when it returns, each flag is true
    exactly when it was true in the settings before the call or its option
    (-f, -m) is on the command line. *)
Theorem toggles_are_only_set env argv s0 w :
  configure_simulator env argv (process_start s0 argv) = Ret tt w ->
  fullscreen (settings w) = (fullscreen s0 || existsb (is_flag "f") (flags env argv))%bool
  /\ maximize (settings w) = (maximize s0 || existsb (is_flag "m") (flags env argv))%bool.
Proof.
  intros H. apply configure_simulator_Ret in H as (w' & E & -> & _ & _).
  destruct (run_flags_final _ _ _ E) as (_ & _ & _ & Hf & Hm & _).
  now rewrite Hf, Hm.
Qed.

(** X5.  Long options are not understood: a first argument that starts
    with two dashes and goes on (--help, --version, ...) is rejected as the
    unknown option '-'; the process prints [getopt]'s complaint, the usage
    text and "Unknown option --." and dies, whatever follows on the command
    line. *)
Theorem long_options_are_rejected env prog s more s0 :
  s <> EmptyString ->
  exists w,
    main env (prog :: ("--" ++ s) :: more) (process_start s0 (prog :: ("--" ++ s) :: more))
    = Exit die_status w
    /\ trace w
       = (EvRegister :: invalid_option prog "-" :: usage_events
          ++ [EvPrintf Stderr ("Unknown option -%c." ++ LF) [ArgChar "-"]])%list.
Proof.
  intros Hs. destruct s as [|c s']; [contradiction|].
  set (argv := prog :: ("--" ++ String c s') :: more).
  assert (Hc : exists w,
             configure_simulator env argv (process_start s0 argv) = Exit die_status w
             /\ trace w
                = (EvRegister :: invalid_option prog "-" :: usage_events
                   ++ [EvPrintf Stderr ("Unknown option -%c." ++ LF) [ArgChar "-"]])%list).
  { unfold configure_simulator.
    rewrite (bind_Ret _ _ _ _ _ (configure_defaults_start env s0 argv)).
    rewrite configure_options_S.
    assert (Hg : Libc.getopt_call (posixly_correct env) optstring (hd "" argv)
                   (gopt (defaults_world env s0 argv))
                 = (Some "?"%char, mk_getopt None "-" (String c s') more,
                    [invalid_option prog "-"])).
    { unfold Libc.getopt_call, argv. simpl.
      destruct (posixly_correct env); simpl; now rewrite short_option_optstring. }
    rewrite Hg. unfold configure_case. simpl.
    eexists. split; [reflexivity|]. simpl. reflexivity. }
  destruct Hc as (w & E & T). exists w. split; [|exact T].
  rewrite main_split. now apply bind_Exit.
Qed.

(** ** The rest of [main] *)

(** X6.  When the build has EVDEV support, the display backend has come
    up and the initialisation of "EVDEV" reports -1, the process prints
    "Failed to initialize evdev" and dies: the display backend stays
    initialised, nothing is retried, and neither the demo nor the run loop
    is started. *)
Theorem evdev_init_failure_is_fatal env argv s0 w1 :
  configure_simulator env argv (process_start s0 argv) = Ret tt w1 ->
  LV_USE_EVDEV = true ->
  driver_backends_init_backend (selected_backend w1) (settings w1) <> -1 ->
  driver_backends_init_backend (Some "EVDEV") (settings w1) = -1 ->
  exists w',
    main env argv (process_start s0 argv) = Exit die_status w'
    /\ trace w' = [EvRegister; EvLvInit; EvInitBackend (selected_backend w1);
                   EvInitBackend (Some "EVDEV");
                   EvPrintf Stderr "Failed to initialize evdev" []]
    /\ existsb starts_demo_or_loop (trace w') = false.
Proof.
  intros Hc Hev Hok Hfail.
  rewrite (main_after_Ret _ _ _ _ Hc), main_after_configure_run. simpl.
  apply Z.eqb_neq in Hok. rewrite Hok, Hev, Hfail. simpl.
  apply configure_simulator_Ret in Hc as (_ & _ & _ & _ & T).
  eexists. split; [reflexivity|]. simpl. rewrite T. split; reflexivity.
Qed.

(** X7.  When [configure_simulator] has returned and every backend that is
    initialised comes up, [main] returns 0 after exactly these steps, in
    this order: the registry is filled, the toolkit is initialised, the
    selected display backend is initialised, "EVDEV" is initialised if the
    build has it, the demo is created, its slideshow is started and the run
    loop is entered.  Nothing is printed, and the settings and the selected
    backend are those [configure_simulator] left. *)
Theorem successful_start env argv s0 w1 :
  configure_simulator env argv (process_start s0 argv) = Ret tt w1 ->
  driver_backends_init_backend (selected_backend w1) (settings w1) <> -1 ->
  (LV_USE_EVDEV = true -> driver_backends_init_backend (Some "EVDEV") (settings w1) <> -1) ->
  exists w',
    main env argv (process_start s0 argv) = Ret 0 w'
    /\ trace w'
       = (EvRegister :: EvLvInit :: EvInitBackend (selected_backend w1)
          :: (if LV_USE_EVDEV then [EvInitBackend (Some "EVDEV")] else [])
          ++ [EvDemoWidgets; EvSlideshow; EvRunLoop])%list
    /\ settings w' = settings w1
    /\ selected_backend w' = selected_backend w1.
Proof.
  intros Hc Hok Hev.
  rewrite (main_after_Ret _ _ _ _ Hc), main_after_configure_run. simpl.
  apply Z.eqb_neq in Hok. rewrite Hok.
  apply configure_simulator_Ret in Hc as (_ & _ & _ & _ & T).
  destruct LV_USE_EVDEV.
  - specialize (Hev eq_refl). apply Z.eqb_neq in Hev. rewrite Hev.
    eexists. split; [reflexivity|]. simpl. rewrite T. repeat split.
  - eexists. split; [reflexivity|]. simpl. rewrite T. repeat split.
Qed.

(** ** Sizes written as decimal numbers *)

Lemma single_size_flag env prog c s :
  c = "W"%char \/ c = "H"%char ->
  flags env [prog; String "-" (String c ""); s]
  = [mk_delivery c (mk_getopt (Some s) "?" "" []) []].
Proof.
  intros Hc. unfold flags. simpl.
  unfold Libc.getopt_call. simpl.
  destruct Hc as [-> | ->];
    destruct (posixly_correct env); simpl; reflexivity.
Qed.

(** X8.  A window size written on the command line as the decimal text of
    an [int] is stored exactly, negative numbers included and whatever the
    environment holds: [lvglsim -W <z>] ends configuration with width [z],
    and [lvglsim -H <z>] with height [z]. *)
Theorem size_flag_round_trip env prog s0 z :
  Libc.INT_MIN <= z <= Libc.INT_MAX ->
  (exists w, configure_simulator env [prog; "-W"; decimal z]
               (process_start s0 [prog; "-W"; decimal z]) = Ret tt w
             /\ window_width (settings w) = z)
  /\ (exists w, configure_simulator env [prog; "-H"; decimal z]
                  (process_start s0 [prog; "-H"; decimal z]) = Ret tt w
                /\ window_height (settings w) = z).
Proof.
  intros Hz. split.
  - rewrite configure_simulator_flags.
    rewrite (single_size_flag env prog "W" (decimal z)) by now left.
    rewrite run_flags_cons. unfold configure_case, bind, read_optarg. simpl.
    eexists. split; [reflexivity|]. simpl. now apply atoi_decimal.
  - rewrite configure_simulator_flags.
    rewrite (single_size_flag env prog "H" (decimal z)) by now right.
    rewrite run_flags_cons. unfold configure_case, bind, read_optarg. simpl.
    eexists. split; [reflexivity|]. simpl. now apply atoi_decimal.
Qed.

End Launcher.

(** ** The results on sample command lines *)

(** The launcher of the sample build: registry SDL and FBDEV, [die] exits
    with status 1, no EVDEV, toolkit version 9.3.0-dev. *)
Notation sample_main init env argv :=
  (main sample_backends init 1 false 9 3 0 "dev" env argv
     (process_start sample_settings argv)) (only parsing).

Notation sample_configure env argv :=
  (configure_simulator sample_backends 1 9 3 0 "dev" env argv
     (process_start sample_settings argv)) (only parsing).

Notation sample_case c := (configure_case sample_backends 1 9 3 0 "dev" c) (only parsing).

Notation nth_flag n env argv :=
  (nth n (flags env argv) (mk_delivery "?" (mk_getopt None "?" "" []) [])) (only parsing).

(** The process state in which the loop takes up the [n]-th flag, the
    flags before it having been handled. *)
Notation state_at n env argv :=
  (with_gopt (d_state (nth_flag n env argv))
     (world_of (run_flags sample_backends 1 9 3 0 "dev" (firstn n (flags env argv))
                  (defaults_world env sample_settings argv)))) (only parsing).

(** Running a sample to its end. *)
Ltac run_to_end :=
  match goal with
  | |- exists w, ?r = _ /\ _ => exists (world_of r)
  | |- exists w, ?r = _ => exists (world_of r)
  end.

(** *** C3 *)

Lemma early_exit_flags_witness :
  flags empty_env argv_help_late
  = (firstn 2 (flags empty_env argv_help_late)
     ++ nth_flag 2 empty_env argv_help_late
     :: skipn 3 (flags empty_env argv_help_late))%list
  /\ forallb (passes sample_backends) (firstn 2 (flags empty_env argv_help_late)) = true
  /\ In (d_opt (nth_flag 2 empty_env argv_help_late)) ["h"; "V"; "B"]%char
  /\ exists w',
       sample_main init_succeeds empty_env argv_help_late = Exit 0 w'
       /\ trace w'
          = (EvRegister
             :: requested_output 9 3 0 "dev" (d_opt (nth_flag 2 empty_env argv_help_late)))%list
       /\ existsb starts_something (trace w') = false.
Proof.
  assert (H1 : flags empty_env argv_help_late
               = (firstn 2 (flags empty_env argv_help_late)
                  ++ nth_flag 2 empty_env argv_help_late
                  :: skipn 3 (flags empty_env argv_help_late))%list)
    by (vm_compute; reflexivity).
  assert (H2 : forallb (passes sample_backends) (firstn 2 (flags empty_env argv_help_late))
               = true)
    by (vm_compute; reflexivity).
  assert (H3 : In (d_opt (nth_flag 2 empty_env argv_help_late)) ["h"; "V"; "B"]%char)
    by (simpl; auto).
  refine (conj H1 (conj H2 (conj H3 _))).
  exact (early_exit_flags sample_backends init_succeeds 1 false 9 3 0 "dev"
           empty_env argv_help_late sample_settings _ _ _ H1 H2 H3).
Defined.

(** C3 as stated fails: on [lvglsim -x -h] the command line contains -h,
    yet the process exits with status 1, on the unknown flag before it. *)
Lemma help_after_bad_flag_exits_nonzero :
  (exists d, In d (flags empty_env argv_bad_then_help) /\ d_opt d = "h"%char)
  /\ In "-h" argv_bad_then_help
  /\ (exists w, sample_main init_succeeds empty_env argv_bad_then_help = Exit 1 w)
  /\ ~ (exists w, sample_main init_succeeds empty_env argv_bad_then_help = Exit 0 w).
Proof.
  split; [|split; [|split]].
  - exists (nth_flag 1 empty_env argv_bad_then_help).
    split; [vm_compute; tauto | vm_compute; reflexivity].
  - simpl; auto.
  - run_to_end. vm_compute. reflexivity.
  - intros [w H]. vm_compute in H. discriminate H.
Qed.

(** *** C1 *)

Lemma window_size_defaults_witness :
  sample_configure sized_env argv_fullscreen
  = Ret tt (world_of (sample_configure sized_env argv_fullscreen))
  /\ existsb (is_flag "W") (flags sized_env argv_fullscreen) = false
  /\ getenv sized_env "LV_SIM_WINDOW_WIDTH" = Some "1024"
  /\ window_width (settings (world_of (sample_configure sized_env argv_fullscreen)))
     = Libc.atoi "1024".
Proof.
  assert (H1 : sample_configure sized_env argv_fullscreen
               = Ret tt (world_of (sample_configure sized_env argv_fullscreen)))
    by (vm_compute; reflexivity).
  assert (H2 : existsb (is_flag "W") (flags sized_env argv_fullscreen) = false)
    by (vm_compute; reflexivity).
  assert (H3 : getenv sized_env "LV_SIM_WINDOW_WIDTH" = Some "1024")
    by (vm_compute; reflexivity).
  refine (conj H1 (conj H2 (conj H3 _))).
  destruct (window_size_defaults sample_backends 1 9 3 0 "dev" sized_env argv_fullscreen
              sample_settings _ H1) as [Hw _].
  destruct (Hw H2) as [_ Hs]. exact (Hs "1024" H3).
Defined.

(** C1 as stated fails: with neither variable in the environment,
    [lvglsim -W 100] leaves a width of 100 after configuration, not 800. *)
Lemma width_flag_overrides_default :
  getenv empty_env "LV_SIM_WINDOW_WIDTH" = None
  /\ getenv empty_env "LV_SIM_WINDOW_HEIGHT" = None
  /\ exists w, sample_configure empty_env argv_width_100 = Ret tt w
               /\ window_width (settings w) = 100
               /\ window_width (settings w) <> 800.
Proof.
  split; [reflexivity|]. split; [reflexivity|].
  run_to_end. vm_compute. repeat split. discriminate.
Qed.

(** *** C2 *)

Lemma flag_sets_its_field_witness :
  In (nth_flag 3 empty_env argv_two_backends) (flags empty_env argv_two_backends)
  /\ gopt (state_at 3 empty_env argv_two_backends)
     = d_state (nth_flag 3 empty_env argv_two_backends)
  /\ d_opt (nth_flag 3 empty_env argv_two_backends) = "b"%char
  /\ In "SDL" sample_backends
  /\ exists name,
       d_arg (nth_flag 3 empty_env argv_two_backends) = Some name
       /\ (In name sample_backends ->
           sample_case "b" (state_at 3 empty_env argv_two_backends)
           = Ret tt (with_backend (Some name) (state_at 3 empty_env argv_two_backends))).
Proof.
  assert (H1 : In (nth_flag 3 empty_env argv_two_backends)
                 (flags empty_env argv_two_backends))
    by (vm_compute; tauto).
  assert (H2 : gopt (state_at 3 empty_env argv_two_backends)
               = d_state (nth_flag 3 empty_env argv_two_backends))
    by (vm_compute; reflexivity).
  assert (H3 : d_opt (nth_flag 3 empty_env argv_two_backends) = "b"%char)
    by (vm_compute; reflexivity).
  assert (H4 : In "SDL" sample_backends) by (simpl; tauto).
  refine (conj H1 (conj H2 (conj H3 (conj H4 _)))).
  exact (proj2 (proj2 (proj2 (proj2
           (flag_sets_its_field sample_backends 1 9 3 0 "dev" empty_env argv_two_backends
              _ _ H1 H2)))) H3).
Defined.

(** C2 as stated fails for -b: on [lvglsim -b nosuch] the flag is found
    with its argument, but the name is not recorded; the process dies with
    the pointer still [NULL]. *)
Lemma unsupported_backend_is_not_recorded :
  (exists d, In d (flags empty_env argv_no_such_backend)
             /\ d_opt d = "b"%char /\ d_arg d = Some "nosuch")
  /\ exists w, sample_main init_succeeds empty_env argv_no_such_backend = Exit 1 w
               /\ selected_backend w = None
               /\ selected_backend w <> Some "nosuch".
Proof.
  split.
  - exists (nth_flag 0 empty_env argv_no_such_backend).
    vm_compute. repeat split. tauto.
  - run_to_end. vm_compute. repeat split. discriminate.
Qed.

(** *** C4 *)

Lemma rejected_flag_is_fatal_witness :
  flags empty_env argv_missing_argument
  = (firstn 1 (flags empty_env argv_missing_argument)
     ++ nth_flag 1 empty_env argv_missing_argument
     :: skipn 2 (flags empty_env argv_missing_argument))%list
  /\ forallb (passes sample_backends) (firstn 1 (flags empty_env argv_missing_argument))
     = true
  /\ d_opt (nth_flag 1 empty_env argv_missing_argument) = "?"%char
  /\ 1 <> 0
  /\ exists st w',
       sample_main init_succeeds empty_env argv_missing_argument = Exit st w'
       /\ st <> 0
       /\ existsb starts_something (trace w') = false.
Proof.
  assert (H1 : flags empty_env argv_missing_argument
               = (firstn 1 (flags empty_env argv_missing_argument)
                  ++ nth_flag 1 empty_env argv_missing_argument
                  :: skipn 2 (flags empty_env argv_missing_argument))%list)
    by (vm_compute; reflexivity).
  assert (H2 : forallb (passes sample_backends)
                 (firstn 1 (flags empty_env argv_missing_argument)) = true)
    by (vm_compute; reflexivity).
  assert (H3 : d_opt (nth_flag 1 empty_env argv_missing_argument) = "?"%char)
    by (vm_compute; reflexivity).
  assert (H4 : 1 <> 0) by discriminate.
  refine (conj H1 (conj H2 (conj H3 (conj H4 _)))).
  destruct (rejected_flag_is_fatal sample_backends init_succeeds 1 false 9 3 0 "dev"
              empty_env argv_missing_argument sample_settings _ _ _ H1 H2 H3 H4)
    as (st & w' & Hm & Hst & _ & _ & Hq).
  exists st, w'. auto.
Defined.

(** C4 as stated fails: [lvglsim -h -x] holds the unknown flag -x, yet the
    process exits with status 0, on the -h before it, and no diagnostic is
    written to stderr. *)
Lemma bad_flag_after_help_exits_zero :
  (exists d, In d (flags empty_env argv_help_then_bad)
             /\ d_opt d = "?"%char /\ optopt (d_state d) = "x"%char)
  /\ In "-x" argv_help_then_bad
  /\ exists w, sample_main init_succeeds empty_env argv_help_then_bad = Exit 0 w
               /\ trace w = (EvRegister :: usage_events)%list.
Proof.
  split; [|split].
  - exists (nth_flag 1 empty_env argv_help_then_bad).
    vm_compute. repeat split. tauto.
  - simpl; auto.
  - run_to_end. vm_compute. repeat split.
Qed.

(** *** C5 *)

Lemma unknown_backend_is_fatal_witness :
  flags empty_env argv_second_backend_bad
  = (firstn 1 (flags empty_env argv_second_backend_bad)
     ++ nth_flag 1 empty_env argv_second_backend_bad
     :: skipn 2 (flags empty_env argv_second_backend_bad))%list
  /\ forallb (passes sample_backends) (firstn 1 (flags empty_env argv_second_backend_bad))
     = true
  /\ d_opt (nth_flag 1 empty_env argv_second_backend_bad) = "b"%char
  /\ d_arg (nth_flag 1 empty_env argv_second_backend_bad) = Some "nosuch"
  /\ ~ In "nosuch" sample_backends
  /\ 1 <> 0
  /\ exists st w',
       sample_main init_succeeds empty_env argv_second_backend_bad = Exit st w'
       /\ st <> 0
       /\ trace w'
          = [EvRegister;
             EvPrintf Stderr ("error no such backend: %s" ++ LF) [ArgStr "nosuch"]]
       /\ selected_backend w' <> Some "nosuch".
Proof.
  assert (H1 : flags empty_env argv_second_backend_bad
               = (firstn 1 (flags empty_env argv_second_backend_bad)
                  ++ nth_flag 1 empty_env argv_second_backend_bad
                  :: skipn 2 (flags empty_env argv_second_backend_bad))%list)
    by (vm_compute; reflexivity).
  assert (H2 : forallb (passes sample_backends)
                 (firstn 1 (flags empty_env argv_second_backend_bad)) = true)
    by (vm_compute; reflexivity).
  assert (H3 : d_opt (nth_flag 1 empty_env argv_second_backend_bad) = "b"%char)
    by (vm_compute; reflexivity).
  assert (H4 : d_arg (nth_flag 1 empty_env argv_second_backend_bad) = Some "nosuch")
    by (vm_compute; reflexivity).
  assert (H5 : ~ In "nosuch" sample_backends)
    by (simpl; intros [H|[H|[]]]; discriminate H).
  assert (H6 : 1 <> 0) by discriminate.
  refine (conj H1 (conj H2 (conj H3 (conj H4 (conj H5 (conj H6 _)))))).
  destruct (unknown_backend_is_fatal sample_backends init_succeeds 1 false 9 3 0 "dev"
              empty_env argv_second_backend_bad sample_settings _ _ _ _ H1 H2 H3 H4 H5 H6)
    as (st & w1 & w' & _ & Hm & Hst & Ht & _ & _ & Hn).
  exists st, w'. auto.
Defined.

(** C5 as stated fails: [lvglsim -h -b nosuch] holds -b with a name that
    is not in the registry, yet the process exits with status 0, on the -h
    before it, without a word about the backend. *)
Lemma unknown_backend_after_help_exits_zero :
  (exists d, In d (flags empty_env argv_help_then_backend)
             /\ d_opt d = "b"%char /\ d_arg d = Some "nosuch")
  /\ ~ In "nosuch" sample_backends
  /\ exists w, sample_main init_succeeds empty_env argv_help_then_backend = Exit 0 w
               /\ trace w = (EvRegister :: usage_events)%list.
Proof.
  split; [|split].
  - exists (nth_flag 1 empty_env argv_help_then_backend).
    vm_compute. repeat split. tauto.
  - simpl. intros [H|[H|[]]]; discriminate H.
  - run_to_end. vm_compute. repeat split.
Qed.

(** *** C6 *)

Lemma backend_init_failure_is_fatal_witness :
  sample_configure empty_env argv_two_backends
  = Ret tt (world_of (sample_configure empty_env argv_two_backends))
  /\ init_fails (selected_backend (world_of (sample_configure empty_env argv_two_backends)))
       (settings (world_of (sample_configure empty_env argv_two_backends))) = -1
  /\ exists w',
       sample_main init_fails empty_env argv_two_backends = Exit 1 w'
       /\ trace w' = (EvRegister :: init_failure_events (Some "SDL"))%list
       /\ filter is_init_backend (trace w') = [EvInitBackend (Some "SDL")]
       /\ existsb starts_demo_or_loop (trace w') = false.
Proof.
  assert (H1 : sample_configure empty_env argv_two_backends
               = Ret tt (world_of (sample_configure empty_env argv_two_backends)))
    by (vm_compute; reflexivity).
  assert (H2 : init_fails
                 (selected_backend (world_of (sample_configure empty_env argv_two_backends)))
                 (settings (world_of (sample_configure empty_env argv_two_backends))) = -1)
    by (vm_compute; reflexivity).
  refine (conj H1 (conj H2 _)).
  exact (backend_init_failure_is_fatal sample_backends init_fails 1 false 9 3 0 "dev"
           empty_env argv_two_backends sample_settings _ H1 H2).
Defined.

(** *** C7 *)

Lemma settings_fixed_after_configure_witness :
  sample_configure sized_env argv_two_backends
  = Ret tt (world_of (sample_configure sized_env argv_two_backends))
  /\ settings (world_of (sample_main init_succeeds sized_env argv_two_backends))
     = settings (world_of (sample_configure sized_env argv_two_backends))
  /\ settings (world_of (sample_main init_succeeds sized_env argv_two_backends))
     = mk_settings 1024 480 true true.
Proof.
  assert (H1 : sample_configure sized_env argv_two_backends
               = Ret tt (world_of (sample_configure sized_env argv_two_backends)))
    by (vm_compute; reflexivity).
  refine (conj H1 (conj _ _)).
  - exact (proj1 (settings_fixed_after_configure sample_backends init_succeeds 1 false
                    9 3 0 "dev" sized_env argv_two_backends sample_settings _ H1)).
  - vm_compute. reflexivity.
Defined.

(** *** C8 *)

Lemma selected_backend_after_configure_witness :
  sample_configure empty_env argv_two_backends
  = Ret tt (world_of (sample_configure empty_env argv_two_backends))
  /\ last_arg "b" (flags empty_env argv_two_backends) = Some "SDL"
  /\ selected_backend (world_of (sample_configure empty_env argv_two_backends))
     = Some "SDL".
Proof.
  assert (H1 : sample_configure empty_env argv_two_backends
               = Ret tt (world_of (sample_configure empty_env argv_two_backends)))
    by (vm_compute; reflexivity).
  assert (H2 : last_arg "b" (flags empty_env argv_two_backends) = Some "SDL")
    by (vm_compute; reflexivity).
  refine (conj H1 (conj H2 _)).
  rewrite <- H2.
  exact (proj1 (selected_backend_after_configure sample_backends "SDL" init_succeeds 1
                  false 9 3 0 "dev" empty_env argv_two_backends sample_settings _ H1)).
Defined.

(** Without -b the dispatcher is called with [NULL]. *)
Example plain_run_uses_default_backend :
  exists w, sample_main init_succeeds empty_env argv_plain = Ret 0 w
            /\ selected_backend w = None
            /\ trace w = [EvRegister; EvLvInit; EvInitBackend None;
                          EvDemoWidgets; EvSlideshow; EvRunLoop].
Proof. run_to_end. vm_compute. repeat split. Qed.

(** *** C9 *)

Lemma window_size_arguments_unchecked_witness :
  In (nth_flag 0 empty_env argv_px) (flags empty_env argv_px)
  /\ gopt (state_at 0 empty_env argv_px) = d_state (nth_flag 0 empty_env argv_px)
  /\ (d_opt (nth_flag 0 empty_env argv_px) = "W"%char
      \/ d_opt (nth_flag 0 empty_env argv_px) = "H"%char)
  /\ (exists a,
        d_arg (nth_flag 0 empty_env argv_px) = Some a
        /\ d_err (nth_flag 0 empty_env argv_px) = []
        /\ sample_case (d_opt (nth_flag 0 empty_env argv_px))
             (state_at 0 empty_env argv_px)
           = Ret tt (with_settings
                       (if Ascii.eqb (d_opt (nth_flag 0 empty_env argv_px)) "W"
                        then set_window_width (Libc.atoi a)
                        else set_window_height (Libc.atoi a))
                       (state_at 0 empty_env argv_px))
        /\ (starts_with_number a = false -> Libc.atoi a = 0)
        /\ (forall z, Libc.INT_MIN <= z < 0 -> a = decimal z -> Libc.atoi a = z)
        /\ (forall ws sign u rest,
              all_space ws = true -> is_sign sign = true -> u <> Decimal.Nil ->
              no_leading_digit rest = true ->
              Libc.INT_MIN <= signed_value sign u <= Libc.INT_MAX ->
              a = ws ++ sign ++ NilEmpty.string_of_uint u ++ rest ->
              Libc.atoi a = signed_value sign u))
  /\ Libc.atoi "12px" = signed_value "" (Decimal.D1 (Decimal.D2 Decimal.Nil)).
Proof.
  assert (H1 : In (nth_flag 0 empty_env argv_px) (flags empty_env argv_px))
    by (vm_compute; tauto).
  assert (H2 : gopt (state_at 0 empty_env argv_px)
               = d_state (nth_flag 0 empty_env argv_px))
    by (vm_compute; reflexivity).
  assert (H3 : d_opt (nth_flag 0 empty_env argv_px) = "W"%char
               \/ d_opt (nth_flag 0 empty_env argv_px) = "H"%char)
    by (left; vm_compute; reflexivity).
  pose proof (window_size_arguments_unchecked sample_backends 1 9 3 0 "dev" empty_env
                argv_px _ _ H1 H2 H3) as Hthm.
  refine (conj H1 (conj H2 (conj H3 (conj Hthm _)))).
  destruct Hthm as (a & Ha & _ & _ & _ & _ & Hlead).
  assert (Ea : a = "12px") by (vm_compute in Ha; congruence).
  subst a.
  apply (Hlead "" "" (Decimal.D1 (Decimal.D2 Decimal.Nil)) "px");
    try (vm_compute; reflexivity).
  - discriminate.
  - vm_compute. split; discriminate.
Defined.

(** A negative width and a height that is no number are stored as -5 and
    0, and the launcher carries on. *)
Example sizes_are_stored_unchecked :
  exists w, sample_main init_succeeds empty_env argv_sizes = Ret 0 w
            /\ settings w = mk_settings (-5) 0 false false
            /\ trace w = [EvRegister; EvLvInit; EvInitBackend None;
                          EvDemoWidgets; EvSlideshow; EvRunLoop].
Proof. run_to_end. vm_compute. repeat split. Qed.

(** C9 as stated fails: "12px" is no number, yet [lvglsim -W 12px] stores
    the width 12, not 0. *)
Lemma trailing_text_keeps_leading_number :
  is_numeral "12px" = false
  /\ exists w, sample_main init_succeeds empty_env argv_px = Ret 0 w
               /\ window_width (settings w) = 12
               /\ window_width (settings w) <> 0.
Proof.
  split; [reflexivity|].
  run_to_end. vm_compute. repeat split. discriminate.
Qed.

(** Outside the range of [int] the stored value is not the number
    written: the conversion wraps. *)
Example atoi_wraps :
  Libc.atoi "-4294967295" = 1 /\ Libc.atoi "2147483648" = -2147483648.
Proof. split; vm_compute; reflexivity. Qed.

(** A number with trailing text, white space and a sign in front. *)
Example atoi_reads_leading_number :
  Libc.atoi "12px" = 12 /\ Libc.atoi "  -007 wide" = -7 /\ Libc.atoi "+640x480" = 640.
Proof. repeat split; vm_compute; reflexivity. Qed.

(** *** C10 *)

Example main_alt_spins :
  main_alt init_succeeds 1 1000 empty_env argv_help_late
    (process_start sample_settings argv_help_late)
  = Fuel (mk_world sample_settings (Some "FBDEV") (Libc.getopt_init argv_help_late)
            [EvRegister; EvLvInit; EvInitBackend (Some "FBDEV");
             EvDrawCharExample; EvRunLoop]).
Proof. vm_compute. reflexivity. Qed.

(** *** Which words of the command line are flags

    An operand before a flag is passed over, unless POSIXLY_CORRECT is set;
    nothing after [--] is a flag; and the word after -W is its argument
    even when it looks like a flag. *)

Example operand_is_passed_over :
  fullscreen (settings (world_of (sample_main init_succeeds empty_env argv_operand_first)))
  = true
  /\ fullscreen (settings (world_of (sample_main init_succeeds posix_env argv_operand_first)))
     = false.
Proof. split; vm_compute; reflexivity. Qed.

Example nothing_after_dashes_is_a_flag :
  flags empty_env argv_after_dashes = []
  /\ exists w, sample_main init_succeeds empty_env argv_after_dashes = Ret 0 w.
Proof. split; [vm_compute; reflexivity|]. run_to_end. vm_compute. reflexivity. Qed.

Example argument_of_width_is_not_a_flag :
  exists w, sample_main init_succeeds empty_env argv_width_dash_h = Ret 0 w
            /\ window_width (settings w) = 0.
Proof. run_to_end. vm_compute. repeat split. Qed.

(** ** Results beyond the claims, on sample inputs *)

Lemma last_size_flag_wins_witness :
  sample_configure sized_env argv_two_widths
  = Ret tt (world_of (sample_configure sized_env argv_two_widths))
  /\ last_arg "W" (flags sized_env argv_two_widths) = Some "200"
  /\ window_width (settings (world_of (sample_configure sized_env argv_two_widths)))
     = Libc.atoi "200".
Proof.
  assert (H1 : sample_configure sized_env argv_two_widths
               = Ret tt (world_of (sample_configure sized_env argv_two_widths)))
    by (vm_compute; reflexivity).
  assert (H2 : last_arg "W" (flags sized_env argv_two_widths) = Some "200")
    by (vm_compute; reflexivity).
  refine (conj H1 (conj H2 _)).
  exact (proj1 (last_size_flag_wins sample_backends 1 9 3 0 "dev" sized_env argv_two_widths
                  sample_settings _ H1) "200" H2).
Defined.

Lemma toggles_are_only_set_witness :
  configure_simulator sample_backends 1 9 3 0 "dev" empty_env argv_fullscreen
    (process_start maximized_settings argv_fullscreen)
  = Ret tt (world_of (configure_simulator sample_backends 1 9 3 0 "dev" empty_env
                        argv_fullscreen (process_start maximized_settings argv_fullscreen)))
  /\ fullscreen (settings (world_of (configure_simulator sample_backends 1 9 3 0 "dev"
                                      empty_env argv_fullscreen
                                      (process_start maximized_settings argv_fullscreen))))
     = true
  /\ maximize (settings (world_of (configure_simulator sample_backends 1 9 3 0 "dev"
                                     empty_env argv_fullscreen
                                     (process_start maximized_settings argv_fullscreen))))
     = true.
Proof.
  assert (H1 : configure_simulator sample_backends 1 9 3 0 "dev" empty_env argv_fullscreen
                 (process_start maximized_settings argv_fullscreen)
               = Ret tt (world_of (configure_simulator sample_backends 1 9 3 0 "dev"
                                     empty_env argv_fullscreen
                                     (process_start maximized_settings argv_fullscreen))))
    by (vm_compute; reflexivity).
  refine (conj H1 _).
  destruct (toggles_are_only_set sample_backends 1 9 3 0 "dev" empty_env argv_fullscreen
              maximized_settings _ H1) as [Hf Hm].
  split; [rewrite Hf | rewrite Hm]; vm_compute; reflexivity.
Defined.

Lemma long_options_are_rejected_witness :
  "help" <> EmptyString
  /\ exists w,
       main sample_backends init_succeeds 1 false 9 3 0 "dev" empty_env
         ("lvglsim" :: ("--" ++ "help") :: [])
         (process_start sample_settings ("lvglsim" :: ("--" ++ "help") :: []))
       = Exit 1 w
       /\ trace w
          = (EvRegister :: invalid_option "lvglsim" "-" :: usage_events
             ++ [EvPrintf Stderr ("Unknown option -%c." ++ LF) [ArgChar "-"]])%list.
Proof.
  assert (H1 : "help" <> EmptyString) by discriminate.
  refine (conj H1 _).
  exact (long_options_are_rejected sample_backends init_succeeds 1 false 9 3 0 "dev"
           empty_env "lvglsim" "help" [] sample_settings H1).
Defined.

Lemma evdev_init_failure_is_fatal_witness :
  sample_configure empty_env argv_plain
  = Ret tt (world_of (sample_configure empty_env argv_plain))
  /\ true = true
  /\ init_fails_for_evdev (selected_backend (world_of (sample_configure empty_env argv_plain)))
       (settings (world_of (sample_configure empty_env argv_plain))) <> -1
  /\ init_fails_for_evdev (Some "EVDEV")
       (settings (world_of (sample_configure empty_env argv_plain))) = -1
  /\ exists w',
       main sample_backends init_fails_for_evdev 1 true 9 3 0 "dev" empty_env argv_plain
         (process_start sample_settings argv_plain) = Exit 1 w'
       /\ trace w' = [EvRegister; EvLvInit; EvInitBackend None;
                      EvInitBackend (Some "EVDEV");
                      EvPrintf Stderr "Failed to initialize evdev" []]
       /\ existsb starts_demo_or_loop (trace w') = false.
Proof.
  assert (H1 : sample_configure empty_env argv_plain
               = Ret tt (world_of (sample_configure empty_env argv_plain)))
    by (vm_compute; reflexivity).
  assert (H2 : true = true) by reflexivity.
  assert (H3 : init_fails_for_evdev
                 (selected_backend (world_of (sample_configure empty_env argv_plain)))
                 (settings (world_of (sample_configure empty_env argv_plain))) <> -1)
    by (vm_compute; discriminate).
  assert (H4 : init_fails_for_evdev (Some "EVDEV")
                 (settings (world_of (sample_configure empty_env argv_plain))) = -1)
    by (vm_compute; reflexivity).
  refine (conj H1 (conj H2 (conj H3 (conj H4 _)))).
  exact (evdev_init_failure_is_fatal sample_backends init_fails_for_evdev 1 true 9 3 0 "dev"
           empty_env argv_plain sample_settings _ H1 H2 H3 H4).
Defined.

Lemma successful_start_witness :
  sample_configure empty_env argv_two_backends
  = Ret tt (world_of (sample_configure empty_env argv_two_backends))
  /\ exists w',
       main sample_backends init_succeeds 1 true 9 3 0 "dev" empty_env argv_two_backends
         (process_start sample_settings argv_two_backends) = Ret 0 w'
       /\ trace w' = [EvRegister; EvLvInit; EvInitBackend (Some "SDL");
                      EvInitBackend (Some "EVDEV");
                      EvDemoWidgets; EvSlideshow; EvRunLoop]
       /\ settings w' = mk_settings 800 480 true true.
Proof.
  assert (H1 : sample_configure empty_env argv_two_backends
               = Ret tt (world_of (sample_configure empty_env argv_two_backends)))
    by (vm_compute; reflexivity).
  assert (H2 : init_succeeds
                 (selected_backend (world_of (sample_configure empty_env argv_two_backends)))
                 (settings (world_of (sample_configure empty_env argv_two_backends))) <> -1)
    by (vm_compute; discriminate).
  assert (H3 : true = true ->
               init_succeeds (Some "EVDEV")
                 (settings (world_of (sample_configure empty_env argv_two_backends))) <> -1)
    by (intros _; vm_compute; discriminate).
  refine (conj H1 _).
  destruct (successful_start sample_backends init_succeeds 1 true 9 3 0 "dev" empty_env
              argv_two_backends sample_settings _ H1 H2 H3) as (w' & Hm & Ht & Hs & _).
  exists w'. split; [exact Hm|]. split.
  - rewrite Ht. vm_compute. reflexivity.
  - rewrite Hs. vm_compute. reflexivity.
Defined.

Lemma size_flag_round_trip_witness :
  Libc.INT_MIN <= -5 <= Libc.INT_MAX
  /\ exists w, configure_simulator sample_backends 1 9 3 0 "dev" sized_env
                 ["lvglsim"; "-W"; decimal (-5)]
                 (process_start sample_settings ["lvglsim"; "-W"; decimal (-5)]) = Ret tt w
               /\ window_width (settings w) = -5.
Proof.
  assert (H1 : Libc.INT_MIN <= -5 <= Libc.INT_MAX) by (vm_compute; split; discriminate).
  refine (conj H1 _).
  exact (proj1 (size_flag_round_trip sample_backends 1 9 3 0 "dev" sized_env "lvglsim"
                  sample_settings (-5) H1)).
Defined.

(** ** The debug dump *)

Module DebugBufferFacts.
Import DebugBuffer.

Lemma length_append s1 s2 :
  String.length (s1 ++ s2) = (String.length s1 + String.length s2)%nat.
Proof. induction s1 as [|c s1 IH]; simpl; [reflexivity | now rewrite IH]. Qed.

Lemma land_shiftr_1 b k : 0 <= k -> Z.land (Z.shiftr b k) 1 = Z.b2z (Z.testbit b k).
Proof.
  intros Hk. change 1 with (Z.ones 1). rewrite Z.land_ones by lia.
  rewrite <- Z.bit0_mod, Z.shiftr_spec by lia. now rewrite Z.add_0_l.
Qed.

Lemma pixel_char_bit b k :
  0 <= k -> pixel_char (Z.land (Z.shiftr b k) 1) = if Z.testbit b k then "*"%char else "-"%char.
Proof. intros Hk. rewrite land_shiftr_1 by assumption. now destruct (Z.testbit b k). Qed.

Lemma pixel_Some data x y p :
  0 <= x -> 0 <= y -> pixel data x y = Some p ->
  y * 16 + x / 8 < Z.of_nat (List.length data)
  /\ pixel_char p = if shown_bit data x y then "*"%char else "-"%char.
Proof.
  intros Hx Hy. unfold pixel, shown_bit.
  rewrite Z.quot_div_nonneg, Z.rem_mod_nonneg by lia.
  destruct (Libc.INT_MAX <? y * 16 + x / 8); [discriminate|].
  destruct (nth_error data (Z.to_nat (y * 16 + x / 8))) as [b|] eqn:E; [|discriminate].
  intros H; inversion H; subst. split.
  - assert (Hlt : (Z.to_nat (y * 16 + x / 8) < List.length data)%nat).
    { apply nth_error_Some. congruence. }
    assert (0 <= x / 8) by (apply Z.div_pos; lia). lia.
  - rewrite (nth_error_nth _ _ 0 E). apply pixel_char_bit.
    pose proof (Z.mod_pos_bound x 8). lia.
Qed.

Lemma pixel_defined data x y :
  0 <= x -> 0 <= y ->
  (pixel data x y <> None
   <-> y * 16 + x / 8 <= Libc.INT_MAX /\ y * 16 + x / 8 < Z.of_nat (List.length data)).
Proof.
  intros Hx Hy. unfold pixel.
  rewrite Z.quot_div_nonneg by lia.
  assert (0 <= x / 8) by (apply Z.div_pos; lia).
  destruct (Z.ltb_spec Libc.INT_MAX (y * 16 + x / 8)).
  - split; [congruence | lia].
  - destruct (nth_error data (Z.to_nat (y * 16 + x / 8))) as [b|] eqn:E.
    + split; [|discriminate]. intros _. split; [assumption|].
      assert (Hlt : (Z.to_nat (y * 16 + x / 8) < List.length data)%nat).
      { apply nth_error_Some. congruence. }
      lia.
    + split; [congruence|]. intros [_ Hlt]. apply nth_error_None in E. lia.
Qed.

Lemma print_row_Some n data y :
  forall x r,
    0 <= x -> 0 <= y -> print_row n data x y = Some r ->
    String.length r = n
    /\ forall i, (i < n)%nat ->
         String.get i r
         = Some (if shown_bit data (x + Z.of_nat i) y then "*"%char else "-"%char).
Proof.
  induction n as [|n IH]; intros x r Hx Hy; simpl.
  - intros H; inversion H; subst. split; [reflexivity|]. intros i Hi. lia.
  - destruct (pixel data x y) as [p|] eqn:Ep; [|discriminate].
    destruct (print_row n data (x + 1) y) as [r'|] eqn:Er; [|discriminate].
    intros H; inversion H; subst.
    destruct (IH (x + 1) r' ltac:(lia) Hy Er) as [Hl Hg].
    split; [simpl; now rewrite Hl|].
    intros [|i] Hi; cbn [String.get].
    + rewrite Z.add_0_r. f_equal. now apply (pixel_Some data x y p).
    + rewrite Hg by lia.
      replace (x + Z.of_nat (S i)) with (x + 1 + Z.of_nat i) by lia. reflexivity.
Qed.

Lemma print_row_defined n data y :
  forall x,
    0 <= x -> 0 <= y ->
    (print_row n data x y <> None
     <-> forall i, (i < n)%nat -> pixel data (x + Z.of_nat i) y <> None).
Proof.
  induction n as [|n IH]; intros x Hx Hy; simpl.
  - split; [intros _ i Hi; lia | discriminate].
  - specialize (IH (x + 1) ltac:(lia) Hy).
    destruct (pixel data x y) as [p|] eqn:Ep.
    + destruct (print_row n data (x + 1) y) as [r|].
      * split; [|discriminate]. intros _ [|i] Hi.
        -- rewrite Z.add_0_r. congruence.
        -- replace (x + Z.of_nat (S i)) with (x + 1 + Z.of_nat i) by lia.
           apply IH; [discriminate | lia].
      * split; [congruence|]. intros H. exfalso.
        assert (K : None <> @None string); [|congruence].
        apply IH. intros i Hi.
        replace (x + 1 + Z.of_nat i) with (x + Z.of_nat (S i)) by lia.
        apply H. lia.
    + split; [congruence|]. intros H. exfalso.
      apply (H 0%nat); [lia|]. now rewrite Z.add_0_r.
Qed.

Lemma print_rows_Some n data w :
  forall y t,
    0 <= w -> 0 <= y -> print_rows n data w y = Some t ->
    String.length t = (n * (Z.to_nat w + 1))%nat
    /\ forall j, (j < n)%nat ->
         (forall i, (i < Z.to_nat w)%nat ->
            String.get (j * (Z.to_nat w + 1) + i) t
            = Some (if shown_bit data (Z.of_nat i) (y + Z.of_nat j)
                    then "*"%char else "-"%char))
         /\ String.get (j * (Z.to_nat w + 1) + Z.to_nat w) t = Some NL.
Proof.
  induction n as [|n IH]; intros y t Hw Hy; simpl.
  - intros H; inversion H; subst. split; [reflexivity|]. intros j Hj. lia.
  - destruct (print_row (Z.to_nat w) data 0 y) as [r|] eqn:Er; [|discriminate].
    destruct (print_rows n data w (y + 1)) as [t'|] eqn:Et; [|discriminate].
    intros H; inversion H; subst.
    destruct (print_row_Some _ data y 0 r ltac:(lia) Hy Er) as [Hrl Hrg].
    destruct (IH (y + 1) t' Hw ltac:(lia) Et) as [Htl Htg].
    split.
    + rewrite length_append. simpl. rewrite Hrl, Htl. lia.
    + intros [|j] Hj.
      * simpl. rewrite Z.add_0_r. split.
        -- intros i Hi. rewrite <- append_correct1 by lia.
           rewrite Hrg by assumption. now rewrite Z.add_0_l.
        -- pose proof (append_correct2 r (String NL t') 0) as K.
           rewrite Hrl in K. simpl in K. symmetry. exact K.
      * destruct (Htg j ltac:(lia)) as [Hpix Hnl].
        replace (y + Z.of_nat (S j)) with (y + 1 + Z.of_nat j) by lia.
        split.
        -- intros i Hi.
           replace (S j * (Z.to_nat w + 1) + i)%nat
             with (S (j * (Z.to_nat w + 1) + i) + String.length r)%nat by lia.
           rewrite <- append_correct2. simpl. now apply Hpix.
        -- replace (S j * (Z.to_nat w + 1) + Z.to_nat w)%nat
             with (S (j * (Z.to_nat w + 1) + Z.to_nat w) + String.length r)%nat by lia.
           rewrite <- append_correct2. simpl. exact Hnl.
Qed.

Lemma print_rows_defined n data w :
  forall y,
    0 <= w -> 0 <= y ->
    (print_rows n data w y <> None
     <-> forall j i, (j < n)%nat -> (i < Z.to_nat w)%nat ->
                     pixel data (Z.of_nat i) (y + Z.of_nat j) <> None).
Proof.
  induction n as [|n IH]; intros y Hw Hy; simpl.
  - split; [intros _ j i Hj; lia | discriminate].
  - specialize (IH (y + 1) Hw ltac:(lia)).
    pose proof (print_row_defined (Z.to_nat w) data y 0 ltac:(lia) Hy) as Hrow.
    destruct (print_row (Z.to_nat w) data 0 y) as [r|].
    + destruct (print_rows n data w (y + 1)) as [t|].
      * split; [|discriminate]. intros _ [|j] i Hj Hi.
        -- rewrite Z.add_0_r. rewrite <- (Z.add_0_l (Z.of_nat i)).
           apply Hrow; [discriminate | assumption].
        -- replace (y + Z.of_nat (S j)) with (y + 1 + Z.of_nat j) by lia.
           apply IH; [discriminate | lia | assumption].
      * split; [congruence|]. intros H. exfalso.
        assert (K : None <> @None string); [|congruence].
        apply IH. intros j i Hj Hi.
        replace (y + 1 + Z.of_nat j) with (y + Z.of_nat (S j)) by lia.
        apply H; lia.
    + split; [congruence|]. intros H. exfalso.
      assert (K : None <> @None string); [|congruence].
      apply Hrow. intros i Hi. rewrite Z.add_0_l.
      specialize (H 0%nat i ltac:(lia) Hi). now rewrite Z.add_0_r in H.
Qed.

Lemma position_nat w x y :
  0 <= w -> 0 <= x -> 0 <= y ->
  position w x y = (Z.to_nat y * (Z.to_nat w + 1) + Z.to_nat x)%nat.
Proof. intros Hw Hx Hy. unfold position. nia. Qed.

Lemma dump_Some data w h hdr t :
  debug_print_lvgl_buffer data w h = Some (hdr, t) ->
  hdr = header w h /\ print_rows (Z.to_nat h) data w 0 = Some t.
Proof.
  unfold debug_print_lvgl_buffer.
  destruct ((h <=? Libc.INT_MAX) && ((h =? 0) || (w <=? Libc.INT_MAX)))%bool;
    [|discriminate].
  destruct (print_rows (Z.to_nat h) data w 0); [|discriminate].
  intros H; inversion H; subst. auto.
Qed.

Lemma print_rows_no_columns n data data' :
  forall y, print_rows n data 0 y = print_rows n data' 0 y.
Proof.
  induction n as [|n IH]; intros y; [reflexivity|].
  simpl. now rewrite (IH (y + 1)).
Qed.

Lemma print_rows_no_columns_defined n data :
  forall y, print_rows n data 0 y <> None.
Proof.
  induction n as [|n IH]; intros y; simpl; [discriminate|].
  specialize (IH (y + 1)).
  destruct (print_rows n data 0 (y + 1)); [discriminate | congruence].
Qed.

(** X9.  When the dump is defined, it consists of the header with the
    resolution and of [h] lines of [w] characters, each followed by a line
    feed: [h * (w + 1)] characters in all. *)
Theorem dump_shape data w h hdr t :
  0 <= w -> 0 <= h ->
  debug_print_lvgl_buffer data w h = Some (hdr, t) ->
  hdr = header w h
  /\ String.length t = Z.to_nat (h * (w + 1))
  /\ forall y, 0 <= y < h -> String.get (position w w y) t = Some NL.
Proof.
  intros Hw Hh H. apply dump_Some in H as [-> Hr].
  destruct (print_rows_Some _ _ _ _ _ Hw (Z.le_refl 0) Hr) as [Hl Hg].
  split; [reflexivity|]. split; [rewrite Hl; nia|].
  intros y Hy. rewrite position_nat by lia.
  apply (Hg (Z.to_nat y)). lia.
Qed.

Lemma pixel_in_dump data w h hdr t x y :
  0 <= x < w -> 0 <= y < h ->
  debug_print_lvgl_buffer data w h = Some (hdr, t) ->
  String.get (position w x y) t
  = Some (if shown_bit data x y then "*"%char else "-"%char).
Proof.
  intros Hx Hy H. apply dump_Some in H as [_ Hr].
  assert (Hw : 0 <= w) by lia.
  destruct (print_rows_Some _ _ _ _ _ Hw (Z.le_refl 0) Hr) as [_ Hg].
  rewrite position_nat by lia.
  assert (Hj : (Z.to_nat y < Z.to_nat h)%nat) by lia.
  destruct (Hg (Z.to_nat y) Hj) as [Hpix _].
  rewrite (Hpix (Z.to_nat x)) by lia.
  now rewrite Z.add_0_l, !Z2Nat.id by lia.
Qed.

(** X10.  In a defined dump the character for column [x] of row [y] is
    '*' when bit [7 - x mod 8] of byte [16 * y + x / 8] of the buffer is
    set and '-' when it is clear: rows are 16 bytes apart and the leftmost
    pixel of a byte is its most significant bit. *)
Theorem dump_pixels data w h hdr t x y :
  0 <= x < w -> 0 <= y < h ->
  debug_print_lvgl_buffer data w h = Some (hdr, t) ->
  String.get (position w x y) t
  = Some (if shown_bit data x y then "*"%char else "-"%char).
Proof. apply pixel_in_dump. Qed.

(** X11.  A dump of at least one row and one column is defined exactly
    when the resolution fits the [int] counters and the last byte it reads,
    byte [16 * (h - 1) + (w - 1) / 8], lies inside the buffer (and its
    index fits an [int]).  With no rows the dump is always defined and is
    the header alone, whatever the width and the buffer.  With no columns
    it is defined exactly when [h] fits the [int] counter, and it is the
    same for every buffer: nothing is read. *)
Theorem dump_defined data w h :
  0 <= w -> 0 <= h ->
  (0 < w -> 0 < h ->
   (debug_print_lvgl_buffer data w h <> None
    <-> w <= Libc.INT_MAX /\ h <= Libc.INT_MAX
        /\ last_byte w h <= Libc.INT_MAX
        /\ last_byte w h < Z.of_nat (List.length data)))
  /\ (h = 0 -> debug_print_lvgl_buffer data w h = Some (header w 0, EmptyString))
  /\ (w = 0 ->
      (debug_print_lvgl_buffer data w h <> None <-> h <= Libc.INT_MAX)
      /\ forall data', debug_print_lvgl_buffer data' w h = debug_print_lvgl_buffer data w h).
Proof.
  intros Hw Hh.
  assert (Hrows : print_rows (Z.to_nat h) data w 0 <> None
                  <-> forall j i, (j < Z.to_nat h)%nat -> (i < Z.to_nat w)%nat ->
                        Z.of_nat j * 16 + Z.of_nat i / 8 <= Libc.INT_MAX
                        /\ Z.of_nat j * 16 + Z.of_nat i / 8 < Z.of_nat (List.length data)).
  { rewrite print_rows_defined by lia.
    split; intros H j i Hj Hi; specialize (H j i Hj Hi); rewrite Z.add_0_l in *.
    - apply pixel_defined in H; [exact H | lia | lia].
    - apply pixel_defined; [lia | lia | exact H]. }
  assert (Hdump : debug_print_lvgl_buffer data w h <> None
                  <-> h <= Libc.INT_MAX /\ (h = 0 \/ w <= Libc.INT_MAX)
                      /\ print_rows (Z.to_nat h) data w 0 <> None).
  { unfold debug_print_lvgl_buffer.
    destruct (Z.leb_spec h Libc.INT_MAX); simpl; [|split; [congruence | lia]].
    destruct (Z.eqb_spec h 0); simpl.
    - destruct (print_rows (Z.to_nat h) data w 0).
      + split; [|discriminate]. intros _. repeat split; auto. discriminate.
      + split; [congruence|]. intros (_ & _ & K). congruence.
    - destruct (Z.leb_spec w Libc.INT_MAX); simpl; [|split; [congruence | lia]].
      destruct (print_rows (Z.to_nat h) data w 0).
      + split; [|discriminate]. intros _. repeat split; auto. discriminate.
      + split; [congruence|]. intros (_ & _ & K). congruence. }
  split; [|split].
  - intros Hw0 Hh0. rewrite Hdump, Hrows. unfold last_byte.
    split.
    + intros (H1 & H2 & H). repeat split; auto; try lia.
      * specialize (H (Z.to_nat (h - 1)) (Z.to_nat (w - 1)) ltac:(lia) ltac:(lia)).
        rewrite !Z2Nat.id in H by lia. tauto.
      * specialize (H (Z.to_nat (h - 1)) (Z.to_nat (w - 1)) ltac:(lia) ltac:(lia)).
        rewrite !Z2Nat.id in H by lia. tauto.
    + intros (H1 & H2 & H3 & H4). repeat split; auto;
        assert (Z.of_nat i / 8 <= (w - 1) / 8) by (apply Z.div_le_mono; lia);
        nia.
  - intros ->. reflexivity.
  - intros ->. split.
    + rewrite Hdump. split; [tauto|]. intros H. repeat split; auto.
      * right. unfold Libc.INT_MAX. lia.
      * apply print_rows_no_columns_defined.
    + intros data'. unfold debug_print_lvgl_buffer.
      now rewrite (print_rows_no_columns _ data' data).
Qed.

(** X12.  The distance of 16 bytes between rows is fixed, whatever the
    width: in a dump wider than 128 columns, the character of column
    [x + 128] of a row is the character of column [x] of the next row. *)
Theorem dump_wraps_after_128_columns data w h hdr t x y :
  0 <= x -> x + 128 < w -> 0 <= y -> y + 1 < h ->
  debug_print_lvgl_buffer data w h = Some (hdr, t) ->
  String.get (position w (x + 128) y) t = String.get (position w x (y + 1)) t.
Proof.
  intros Hx Hxw Hy Hyh H.
  rewrite (pixel_in_dump data w h hdr t (x + 128) y) by (auto; lia).
  rewrite (pixel_in_dump data w h hdr t x (y + 1)) by (auto; lia).
  unfold shown_bit.
  replace (x + 128) with (x + 16 * 8) by lia.
  rewrite Z.div_add, Z.mod_add by lia.
  replace (y * 16 + (x / 8 + 16)) with ((y + 1) * 16 + x / 8) by lia.
  reflexivity.
Qed.

End DebugBufferFacts.

Import DebugBuffer.

Lemma dump_shape_witness :
  0 <= 12 /\ 0 <= 2
  /\ debug_print_lvgl_buffer sample_data 12 2
     = Some (header 12 2, dump_text sample_data 12 2)
  /\ String.length (dump_text sample_data 12 2) = 26%nat
  /\ String.get (position 12 12 1) (dump_text sample_data 12 2) = Some NL.
Proof.
  assert (H1 : 0 <= 12) by discriminate.
  assert (H2 : 0 <= 2) by discriminate.
  assert (H3 : debug_print_lvgl_buffer sample_data 12 2
               = Some (header 12 2, dump_text sample_data 12 2))
    by (vm_compute; reflexivity).
  refine (conj H1 (conj H2 (conj H3 _))).
  destruct (DebugBufferFacts.dump_shape sample_data 12 2 _ _ H1 H2 H3) as (_ & Hl & Hn).
  split; [exact Hl|]. apply Hn. split; [discriminate | reflexivity].
Defined.

Lemma dump_pixels_witness :
  0 <= 2 < 12 /\ 0 <= 1 < 2
  /\ debug_print_lvgl_buffer sample_data 12 2
     = Some (header 12 2, dump_text sample_data 12 2)
  /\ String.get (position 12 2 1) (dump_text sample_data 12 2)
     = Some (if shown_bit sample_data 2 1 then "*"%char else "-"%char).
Proof.
  assert (H1 : 0 <= 2 < 12) by (split; [discriminate | reflexivity]).
  assert (H2 : 0 <= 1 < 2) by (split; [discriminate | reflexivity]).
  assert (H3 : debug_print_lvgl_buffer sample_data 12 2
               = Some (header 12 2, dump_text sample_data 12 2))
    by (vm_compute; reflexivity).
  refine (conj H1 (conj H2 (conj H3 _))).
  exact (DebugBufferFacts.dump_pixels sample_data 12 2 _ _ 2 1 H1 H2 H3).
Defined.

Lemma dump_defined_witness :
  0 <= 12 /\ 0 <= 2 /\ 0 < 12 /\ 0 < 2
  /\ debug_print_lvgl_buffer sample_data 12 2 <> None
  /\ ~ debug_print_lvgl_buffer sample_data 12 3 <> None
  /\ debug_print_lvgl_buffer [] 3000000000 0 = Some (header 3000000000 0, EmptyString)
  /\ debug_print_lvgl_buffer [] 0 5 <> None.
Proof.
  assert (H1 : 0 <= 12) by discriminate.
  assert (H2 : 0 <= 2) by discriminate.
  assert (H2' : 0 <= 3) by discriminate.
  assert (H3 : 0 < 12) by reflexivity.
  assert (H4 : 0 < 2) by reflexivity.
  assert (H4' : 0 < 3) by reflexivity.
  assert (H5 : 0 <= 3000000000) by discriminate.
  assert (H6 : 0 <= 0) by discriminate.
  assert (H7 : 0 <= 5) by discriminate.
  refine (conj H1 (conj H2 (conj H3 (conj H4 _)))). split; [|split; [|split]].
  - apply (proj1 (DebugBufferFacts.dump_defined sample_data 12 2 H1 H2) H3 H4).
    vm_compute. repeat split; discriminate.
  - intros K.
    apply (proj1 (DebugBufferFacts.dump_defined sample_data 12 3 H1 H2') H3 H4') in K.
    destruct K as (_ & _ & _ & K). vm_compute in K. discriminate K.
  - exact (proj1 (proj2 (DebugBufferFacts.dump_defined [] 3000000000 0 H5 H6)) eq_refl).
  - apply (proj1 (proj2 (proj2 (DebugBufferFacts.dump_defined [] 0 5 H6 H7)) eq_refl)).
    vm_compute. discriminate.
Defined.

Lemma dump_wraps_after_128_columns_witness :
  0 <= 1 /\ 1 + 128 < 130 /\ 0 <= 0 /\ 0 + 1 < 2
  /\ debug_print_lvgl_buffer wide_data 130 2
     = Some (header 130 2, dump_text wide_data 130 2)
  /\ String.get (position 130 (1 + 128) 0) (dump_text wide_data 130 2)
     = String.get (position 130 1 (0 + 1)) (dump_text wide_data 130 2).
Proof.
  assert (H1 : 0 <= 1) by discriminate.
  assert (H2 : 1 + 128 < 130) by reflexivity.
  assert (H3 : 0 <= 0) by discriminate.
  assert (H4 : 0 + 1 < 2) by reflexivity.
  assert (H5 : debug_print_lvgl_buffer wide_data 130 2
               = Some (header 130 2, dump_text wide_data 130 2))
    by (vm_compute; reflexivity).
  refine (conj H1 (conj H2 (conj H3 (conj H4 (conj H5 _))))).
  exact (DebugBufferFacts.dump_wraps_after_128_columns wide_data 130 2 _ _ 1 0
           H1 H2 H3 H4 H5).
Defined.
